(** * pyview: the measurement-list importers

    A shallow embedding of [view/python_core/measurement_list/importers.py]
    and the properties of the importers that its specification states.

    Conventions of the embedding:
    - a Python [str] is a [string] whose characters are code points below 256;
    - a Python [float] is an IEEE 754 binary64 number, [spec_float] with
      precision 53 and maximal exponent 1024, and arithmetic is the correctly
      rounded arithmetic of [SpecFloat];
    - a Python [dict] and a pandas [Series] are finite maps from column names
      to values; a [DataFrame] is the list of its rows;
    - a raised exception is the left summand of a result, and the records
      written to the ["VIEW"] logger are collected next to it. *)

From Stdlib Require Import ZArith List String Ascii Bool Lia.
From Stdlib Require Import Floats.SpecFloat.
From stdpp Require Import gmap strings.

Local Open Scope Z_scope.

(** ** Exceptions and values *)

Inductive exn : Type :=
  | ValueError
  | ZeroDivisionError
  | IndexError
  | KeyError
  | TypeError
  | AttributeError
  | OverflowError
  | NotImplementedError
  | IOError (msg : string)
  | AssertionError (msg : string).

Definition result (A : Type) : Type := exn + A.

Definition float : Type := spec_float.

(** The values that occur in raw records and in measurement-list rows. *)
Inductive value : Type :=
  | VInt (z : Z)
  | VFloat (f : float)
  | VStr (s : string).

(** ** Python's [str] methods *)

Module PyStr.

Definition chars (s : string) : list ascii := list_ascii_of_string s.
Definition of_chars (l : list ascii) : string := string_of_list_ascii l.

(** [str.isspace] on one character below 256. *)
Definition is_space (c : ascii) : bool :=
  let n := N_of_ascii c in
  ((9 <=? n) && (n <=? 13) || (28 <=? n) && (n <=? 32)
   || (n =? 133) || (n =? 160))%N.

Fixpoint lstrip_chars (l : list ascii) : list ascii :=
  match l with
  | c :: l' => if is_space c then lstrip_chars l' else l
  | [] => []
  end.

Definition strip_chars (l : list ascii) : list ascii :=
  rev (lstrip_chars (rev (lstrip_chars l))).

(** [s.strip()] *)
Definition strip (s : string) : string := of_chars (strip_chars (chars s)).

(** [s.split(sep)] for a separator of one character: the pieces between
    the occurrences of [sep], empty pieces included. *)
Fixpoint split_chars (sep : ascii) (l : list ascii) : list (list ascii) :=
  match l with
  | [] => [[]]
  | c :: l' =>
      if Ascii.eqb c sep then [] :: split_chars sep l'
      else match split_chars sep l' with
           | p :: ps => (c :: p) :: ps
           | [] => [[c]]
           end
  end.

Definition split (sep : ascii) (s : string) : list string :=
  map of_chars (split_chars sep (chars s)).

Fixpoint starts_chars (p l : list ascii) : bool :=
  match p, l with
  | [], _ => true
  | a :: p', b :: l' => Ascii.eqb a b && starts_chars p' l'
  | _ :: _, [] => false
  end.

(** [s.startswith(p)] and [s.endswith(p)] *)
Definition startswith (s p : string) : bool := starts_chars (chars p) (chars s).
Definition endswith (s p : string) : bool :=
  starts_chars (rev (chars p)) (rev (chars s)).

(** [s[-2:]] *)
Definition last_two (s : string) : string :=
  let l := chars s in of_chars (skipn (length l - 2)%nat l).

(** [s.replace(a, b)] for single characters. *)
Definition replace (a b : ascii) (s : string) : string :=
  of_chars (map (fun c => if Ascii.eqb c a then b else c) (chars s)).

(** [s.rfind(c)]: the index of the last occurrence, or [None] for -1. *)
Fixpoint find_last (c : ascii) (l : list ascii) (i : nat) (acc : option nat)
  : option nat :=
  match l with
  | [] => acc
  | a :: l' => find_last c l' (S i) (if Ascii.eqb a c then Some i else acc)
  end.

Definition rfind (c : ascii) (s : string) : option nat :=
  find_last c (chars s) 0%nat None.

Definition take (n : nat) (s : string) : string := of_chars (firstn n (chars s)).
Definition drop (n : nat) (s : string) : string := of_chars (skipn n (chars s)).

Definition lower (c : ascii) : ascii :=
  let n := N_of_ascii c in
  if ((65 <=? n) && (n <=? 90))%N then ascii_of_N (n + 32) else c.

End PyStr.

(** ** Python's [float] *)

Module PyFloat.

Definition prec : Z := 53.
Definition emax : Z := 1024.

Definition sub : float -> float -> float := SFsub prec emax.
Definition mul : float -> float -> float := SFmul prec emax.
Definition div : float -> float -> float := SFdiv prec emax.

(** The conversion of an [int] to the nearest [float]. *)
Definition of_Z (z : Z) : float := binary_normalize prec emax z 0 false.

(** The [float] nearest to [m * 10 ^ e]; for a negative [e] it is the
    correctly rounded quotient of the two integers [m] and [10 ^ -e]. *)
Definition of_decimal (neg : bool) (m : Z) (e : Z) : float :=
  match m with
  | Zpos p =>
      if 0 <=? e
      then binary_normalize prec emax (cond_Zopp neg (m * 10 ^ e)) 0 false
      else match 10 ^ (- e) with
           | Zpos q => div (S754_finite neg p 0) (S754_finite false q 0)
           | _ => S754_nan
           end
  | _ => S754_zero neg
  end.

Definition digit_of (c : ascii) : option Z :=
  let n := N_of_ascii c in
  if ((48 <=? n) && (n <=? 57))%N then Some (Z.of_N n - 48) else None.

(** [digitpart ::= digit (["_"] digit)*]: the digits read, most significant
    first, and what follows them. *)
Fixpoint digits_tail (l : list ascii) : list Z * list ascii :=
  match l with
  | c :: l' =>
      match digit_of c with
      | Some d => let '(ds, r) := digits_tail l' in (d :: ds, r)
      | None =>
          if Ascii.eqb c "_"
          then match l' with
               | c' :: _ =>
                   match digit_of c' with
                   | Some _ => digits_tail l'
                   | None => ([], l)
                   end
               | [] => ([], l)
               end
          else ([], l)
      end
  | [] => ([], [])
  end.

Definition digitpart (l : list ascii) : list Z * list ascii :=
  match l with
  | c :: _ => match digit_of c with
              | Some _ => digits_tail l
              | None => ([], l)
              end
  | [] => ([], [])
  end.

Definition to_Z (ds : list Z) : Z := fold_left (fun a d => 10 * a + d) ds 0.

(** [exponent ::= ("e" | "E") ["+" | "-"] digitpart], up to the end of the
    literal; an absent exponent is 0. *)
Definition exponent (l : list ascii) : option Z :=
  match l with
  | [] => Some 0
  | c :: l' =>
      if Ascii.eqb (PyStr.lower c) "e"
      then
        let '(neg, l'') :=
          match l' with
          | s :: t => if Ascii.eqb s "-" then (true, t)
                      else if Ascii.eqb s "+" then (false, t)
                      else (false, l')
          | [] => (false, l')
          end in
        match digitpart l'' with
        | (d :: ds, []) => Some (cond_Zopp neg (to_Z (d :: ds)))
        | _ => None
        end
      else None
  end.

(** [floatnumber ::= ([digitpart] "." digitpart | digitpart ["."]) [exponent]] *)
Definition floatnumber (neg : bool) (l : list ascii) : option float :=
  let '(ip, r) := digitpart l in
  let '(fp, r') :=
    match r with
    | c :: t => if Ascii.eqb c "." then digitpart t else ([], r)
    | [] => ([], r)
    end in
  match ip, fp with
  | [], [] => None
  | _, _ =>
      match exponent r' with
      | Some e => Some (of_decimal neg (to_Z (ip ++ fp)) (e - Z.of_nat (length fp)))
      | None => None
      end
  end.

Definition unsigned (neg : bool) (l : list ascii) : option float :=
  let w := PyStr.of_chars (map PyStr.lower l) in
  if String.eqb w "inf" || String.eqb w "infinity" then Some (S754_infinity neg)
  else if String.eqb w "nan" then Some S754_nan
  else floatnumber neg l.

(** [float(s)] for a string [s]: surrounding whitespace is ignored, and a
    string that is no float literal raises [ValueError]. *)
Definition parse (s : string) : result float :=
  let r :=
    match PyStr.strip_chars (PyStr.chars s) with
    | c :: l' => if Ascii.eqb c "-" then unsigned true l'
                 else if Ascii.eqb c "+" then unsigned false l'
                 else unsigned false (c :: l')
    | [] => None
    end in
  match r with
  | Some f => inr f
  | None => inl ValueError
  end.

(** [x / n] for a float [x] and an int [n]. *)
Definition truediv_int (x : float) (n : Z) : result float :=
  if n =? 0 then inl ZeroDivisionError else inr (div x (of_Z n)).

End PyFloat.

(** ** The timing of a measurement *)

Fixpoint mapM {A B : Type} (f : A -> result B) (l : list A) : result (list B) :=
  match l with
  | [] => inr []
  | a :: l' =>
      match f a with
      | inl e => inl e
      | inr b => match mapM f l' with
                 | inl e => inl e
                 | inr bs => inr (b :: bs)
                 end
      end
  end.

(** [calculate_dt_from_timing_ms]: (last frame - first frame) / (frames - 1). *)
Definition calculate_dt_from_timing_ms (timing_ms : string) : result float :=
  let times := PyStr.strip timing_ms in
  match mapM PyFloat.parse (PyStr.split " " times) with
  | inl e => inl e
  | inr times =>
      match times with
      | [] => inl IndexError
      | t0 :: _ =>
          PyFloat.truediv_int (PyFloat.sub (List.last times t0) t0)
                              (Z.of_nat (length times) - 1)
      end
  end.

(** ** Python's [int] and item arithmetic on values *)

Module PyInt.

(** [int(s)] in base 10 for a string. *)
Definition parse (s : string) : result Z :=
  let body neg l :=
    match PyFloat.digitpart l with
    | (d :: ds, []) => inr (cond_Zopp neg (PyFloat.to_Z (d :: ds)))
    | _ => inl ValueError
    end in
  match PyStr.strip_chars (PyStr.chars s) with
  | c :: l' => if Ascii.eqb c "-" then body true l'
               else if Ascii.eqb c "+" then body false l'
               else body false (c :: l')
  | [] => inl ValueError
  end.

(** [int(x)] for a float: truncation towards zero. *)
Definition of_float (f : float) : result Z :=
  match f with
  | S754_zero _ => inr 0
  | S754_infinity _ => inl OverflowError
  | S754_nan => inl ValueError
  | S754_finite s m e =>
      inr (cond_Zopp s (if 0 <=? e then Z.shiftl (Zpos m) e
                        else Z.shiftr (Zpos m) (- e)))
  end.

(** [int(v)] *)
Definition of_value (v : value) : result Z :=
  match v with
  | VInt z => inr z
  | VFloat f => of_float f
  | VStr s => parse s
  end.

(** [v + 1] *)
Definition succ (v : value) : result value :=
  match v with
  | VInt z => inr (VInt (z + 1))
  | VFloat f => inr (VFloat (SFadd PyFloat.prec PyFloat.emax f (PyFloat.of_Z 1)))
  | VStr _ => inl TypeError
  end.

End PyInt.

(** ** The ["VIEW"] logger and the result of a statement *)

Inductive level : Type := INFO | WARNING.

(** The records the importers write, by their format string. *)
Inductive message : Type :=
  | ParsingMetadataFrom (fle : string)
  | ParsingMeasurementWithLabel (label : value)
  | AddingT
  | DataFileNotFound (expected_data_file : string)
  | NoUsableMeasurements (fle : string)
  | WorkingOnAnimalTags (mapping : gmap string (list string)).

Definition log_record : Type := level * message.

(** A computation: the records logged, in order, and its exception or value. *)
Definition M (A : Type) : Type := list log_record * result A.

Definition ret {A : Type} (a : A) : M A := ([], inr a).
Definition raise {A : Type} (e : exn) : M A := ([], inl e).
Definition log (l : level) (m : message) : M unit := ([(l, m)], inr tt).
Definition lift {A : Type} (r : result A) : M A := ([], r).

Definition bind {A B : Type} (m : M A) (k : A -> M B) : M B :=
  match m with
  | (l, inl e) => (l, inl e)
  | (l, inr a) => let '(l', r) := k a in (l ++ l', r)
  end.

Notation "'do' x <- m ; k" := (bind m (fun x => k))
  (at level 10, x name, m at level 100, k at level 200,
   format "'[v' 'do'  x  <-  m ; '/' k ']'").
Notation "'run' m ; k" := (bind m (fun _ => k))
  (at level 10, m at level 100, k at level 200,
   format "'[v' 'run'  m ; '/' k ']'").

Definition logged {A : Type} (m : M A) : list log_record := fst m.
Definition outcome {A : Type} (m : M A) : result A := snd m.

(** ** [pathlib] *)

(** [PureWindowsPath]: both slashes separate, a drive or a UNC share is the
    anchor. *)
Module WinPath.

Definition sep : ascii := "\".
Definition altsep : ascii := "/".

Definition char_at (i : nat) (s : string) : option ascii := nth_error (PyStr.chars s) i.

Definition is_sep (o : option ascii) : bool :=
  match o with Some c => Ascii.eqb c sep | None => false end.

Definition is_drive_letter (o : option ascii) : bool :=
  match o with
  | Some c => let n := N_of_ascii (PyStr.lower c) in ((97 <=? n) && (n <=? 122))%N
  | None => false
  end.

(** [part.find(sep, start)] *)
Fixpoint find_from (l : list ascii) (i : nat) : option nat :=
  match l with
  | [] => None
  | c :: l' => if Ascii.eqb c sep then Some i else find_from l' (S i)
  end.

Definition find_sep (s : string) (start : nat) : option nat :=
  find_from (skipn start (PyStr.chars s)) start.

Fixpoint lstrip_sep (l : list ascii) : list ascii :=
  match l with
  | c :: l' => if Ascii.eqb c sep then lstrip_sep l' else l
  | [] => []
  end.

(** [_split_extended_path]: the prefix [\\?\] and [\\?\UNC\]. *)
Definition split_extended_path (s : string) : string * string :=
  if PyStr.startswith s "\\?\"
  then
    let s' := PyStr.drop 4 s in
    if PyStr.startswith s' "UNC\"
    then ("\\?\UNC", String sep (PyStr.drop 3 s'))
    else ("\\?\", s')
  else ("", s).

(** [splitroot]: drive, root and the rest of a path whose separators are
    all [sep]. *)
Definition splitroot (part0 : string) : string * string * string :=
  let '(prefix, part) :=
    if is_sep (char_at 0 part0) && is_sep (char_at 1 part0)
    then split_extended_path part0 else ("", part0) in
  let first := char_at 0 part in
  let second := char_at 1 part in
  let third := char_at 2 part in
  let unc :=
    if is_sep second && is_sep first && negb (is_sep third)
    then
      match find_sep part 2 with
      | Some index =>
          let index2 := find_sep part (index + 1) in
          if negb (bool_decide (index2 = Some (index + 1)%nat))
          then
            let i2 := match index2 with
                      | Some i => i
                      | None => length (PyStr.chars part)
                      end in
            Some (if bool_decide (prefix = "")
                  then PyStr.take i2 part
                  else prefix +:+ PyStr.take (i2 - 1) (PyStr.drop 1 part),
                  String sep "", PyStr.drop (i2 + 1) part)
          else None
      | None => None
      end
    else None in
  match unc with
  | Some r => r
  | None =>
      let '(drv, part, first) :=
        if bool_decide (second = Some ":"%char) && is_drive_letter first
        then (PyStr.take 2 part, PyStr.drop 2 part, third)
        else ("", part, first) in
      if is_sep first
      then (prefix +:+ drv, String sep "",
            PyStr.of_chars (lstrip_sep (PyStr.chars part)))
      else (prefix +:+ drv, "", part)
  end.

Definition keep (x : string) : bool :=
  negb (bool_decide (x = "")) && negb (bool_decide (x = ".")).

(** [PureWindowsPath(fle).parts] *)
Definition parts (fle : string) : list string :=
  if bool_decide (fle = "") then []
  else
    let '(drv, root, rel) := splitroot (PyStr.replace altsep sep fle) in
    let parsed := List.filter keep (PyStr.split sep rel) in
    if bool_decide (drv +:+ root = "") then parsed else (drv +:+ root) :: parsed.

Definition has_anchor (fle : string) : bool :=
  if bool_decide (fle = "") then false
  else let '(drv, root, _) := splitroot (PyStr.replace altsep sep fle) in
       negb (bool_decide (drv +:+ root = "")).

(** [PureWindowsPath(fle).name] *)
Definition name (fle : string) : string :=
  let ps := parts fle in
  if (length ps =? (if has_anchor fle then 1 else 0))%nat then ""
  else List.last ps "".

(** [name[:i]] when [0 < i < len(name) - 1] for [i = name.rfind('.')]. *)
Definition stem_of_name (nm : string) : string :=
  match PyStr.rfind "." nm with
  | Some i => if (0 <? i)%nat && (i <? length (PyStr.chars nm) - 1)%nat
              then PyStr.take i nm else nm
  | None => nm
  end.

(** [PureWindowsPath(fle).stem] *)
Definition stem (fle : string) : string := stem_of_name (name fle).

(** [parts[-k]] for [k >= 1] *)
Definition part_from_end (k : nat) (ps : list string) : result string :=
  if (length ps <? k)%nat then inl IndexError
  else match nth_error ps (length ps - k) with
       | Some p => inr p
       | None => inl IndexError
       end.

End WinPath.

(** [pl.Path] on a platform whose separator is the forward slash. *)
Module PosixPath.

Definition sep : ascii := "/".

Record t : Type := mk { root : string; comps : list string }.

Fixpoint lstrip_sep (l : list ascii) : list ascii :=
  match l with
  | c :: l' => if Ascii.eqb c sep then lstrip_sep l' else l
  | [] => []
  end.

(** [splitroot]: one slash, or exactly two, is the root. *)
Definition splitroot (part : string) : string * string :=
  let l := PyStr.chars part in
  match l with
  | c :: _ =>
      if Ascii.eqb c sep
      then let stripped := lstrip_sep l in
           (if (length l - length stripped =? 2)%nat then "//" else "/",
            PyStr.of_chars stripped)
      else ("", part)
  | [] => ("", part)
  end.

Definition keep (x : string) : bool :=
  negb (bool_decide (x = "")) && negb (bool_decide (x = ".")).

(** [pl.Path(s)] *)
Definition parse (s : string) : t :=
  if bool_decide (s = "") then mk "" []
  else let '(r, rel) := splitroot s in
       mk r (List.filter keep (PyStr.split sep rel)).

(** [p / s] *)
Definition join (p : t) (s : string) : t :=
  let q := parse s in
  if bool_decide (root q = "") then mk (root p) (comps p ++ comps q) else q.

Fixpoint concat_with (l : list string) : string :=
  match l with
  | [] => ""
  | [x] => x
  | x :: l' => x +:+ String sep (concat_with l')
  end.

(** [str(p)] *)
Definition to_str (p : t) : string :=
  if bool_decide (root p = "")
  then match comps p with [] => "." | _ => concat_with (comps p) end
  else root p +:+ concat_with (comps p).

(** [p.name] and [p.parent] *)
Definition name (p : t) : string := List.last (comps p) "".
Definition parent (p : t) : t := mk (root p) (removelast (comps p)).

Definition eqb (p q : t) : bool :=
  bool_decide (root p = root q) && bool_decide (comps p = comps q).

End PosixPath.

(** ** Rows and frames *)

(** A pandas [Series] indexed by column names, and a [DataFrame] as the list
    of its rows. *)
Abbreviation series := (gmap string value).
Abbreviation frame := (list (gmap string value)).

(** [s[key]] *)
Definition getitem (s : series) (key : string) : result value :=
  match s !! key with
  | Some v => inr v
  | None => inl KeyError
  end.

(** [df[col] = v] for a scalar [v] *)
Definition set_column (col : string) (v : value) (df : frame) : frame :=
  (fun r : series => <[col := v]> r) <$> df.

(** [df[col]], a column with one value per row *)
Definition column (col : string) (df : frame) : result (list value) :=
  mapM (fun r : series => getitem r col) df.

(** [df[col] = vals] for a column [vals] of another frame with the same index *)
Definition assign_column (col : string) (vals : list value) (df : frame) : frame :=
  zip_with (fun (v : value) (r : series) => <[col := v]> r) vals df.

(** [vals[0]] *)
Definition item0 (vals : list value) : result value :=
  match vals with
  | v :: _ => inr v
  | [] => inl KeyError
  end.

(** [additional_cols_func]: the columns injected into every record of a
    vws.log file. Any exception of the timing computation is caught. *)
Definition additional_cols_func (s : series) : gmap string value :=
  let dt :=
    match getitem s "Timing_ms" with
    | inr (VStr timing_ms) => calculate_dt_from_timing_ms timing_ms
    | inr _ => inl AttributeError
    | inl e => inl e
    end in
  match dt with
  | inr dt => <["dt" := VFloat dt]> (<["Analyze" := VInt 1]> ∅)
  | inl _ => <["dt" := VInt (-1)]> (<["Analyze" := VInt 0]> ∅)
  end.

(** ** Importer objects *)

Inductive importer_class : Type :=
  | TillImporterOneWavelength
  | TillImporterTwoWavelength
  | LSMImporter.

(** The values of the instance attributes. *)
Inductive attr : Type :=
  | ANone
  | AInt (z : Z)
  | AStr (s : string)
  | AStrs (l : list string)
  | AMapping (m : gmap string value)
  | AMethod (name : string).

(** An instance: its class and its [__dict__]. *)
Record instance : Type := Instance {
  class_of : importer_class;
  attrs : gmap string attr
}.

Definition setattr (name : string) (a : attr) (self : instance) : instance :=
  Instance (class_of self) (<[name := a]> (attrs self)).

(** [BaseImporter.__init__] *)
Definition BaseImporter_init (default_values : gmap string value) (self : instance)
  : instance :=
  setattr "movie_data_extensions" ANone
    (setattr "LE_loadExp" ANone
       (setattr "associate_file_type" ANone
          (setattr "associated_extensions" ANone
             (setattr "default_values" (AMapping default_values) self)))).

(** [TillImporter.__init__] *)
Definition TillImporter_init (default_values : gmap string value) (self : instance)
  : instance :=
  setattr "movie_data_extensions" (AStrs [".pst"; ".ps"])
    (setattr "associated_extensions" (AStrs [".vws.log"])
       (setattr "associate_file_type" (AStr "VWS Log Files")
          (BaseImporter_init default_values self))).

(** [TillImporterOneWavelength.__init__] *)
Definition TillImporterOneWavelength_init (default_values : gmap string value)
  (self : instance) : instance :=
  setattr "LE_loadExp" (AInt 3) (TillImporter_init default_values self).

(** [TillImporterTwoWavelength.__init__] *)
Definition TillImporterTwoWavelength_init (default_values : gmap string value)
  (self : instance) : instance :=
  setattr "LE_loadExp" (AInt 4) (TillImporter_init default_values self).

(** [LSMImporter.__init__] *)
Definition LSMImporter_init (default_values : gmap string value) (self : instance)
  : instance :=
  setattr "LE_loadExp" (AInt 20)
    (setattr "movie_data_extensions" (AStrs [".lsm"])
       (setattr "associated_extensions" (AStrs [".lsm"])
          (setattr "associate_file_type" (AStr "Zeiss LSM files")
             (BaseImporter_init default_values self)))).

(** [cls(default_values)] *)
Definition new (cls : importer_class) (default_values : gmap string value) : instance :=
  let self := Instance cls ∅ in
  match cls with
  | TillImporterOneWavelength => TillImporterOneWavelength_init default_values self
  | TillImporterTwoWavelength => TillImporterTwoWavelength_init default_values self
  | LSMImporter => LSMImporter_init default_values self
  end.

(** The methods a class defines or inherits. *)
Definition BaseImporter_methods : list string :=
  ["get_default_row"; "import_metadata"; "read_single_measurement_metadata";
   "get_filetype_info_string"; "ask_for_files";
   "get_animal_tag_raw_data_mapping"; "get_path_relative_to_data_dir"].

Definition methods (cls : importer_class) : list string :=
  match cls with
  | TillImporterOneWavelength | TillImporterTwoWavelength =>
      ["convert_vws_names_to_lst_names"; "get_mtime"] ++ BaseImporter_methods
  | LSMImporter => ["convert_lsm_metadata_to_lst_row"] ++ BaseImporter_methods
  end.

(** [self.name]: the instance dictionary first, then the class. *)
Definition getattr (self : instance) (name : string) : result attr :=
  match attrs self !! name with
  | Some a => inr a
  | None => if bool_decide (name ∈ methods (class_of self))
            then inr (AMethod name) else inl AttributeError
  end.

(** An attribute read where a list of strings is iterated over. *)
Definition getattr_strs (self : instance) (name : string) : result (list string) :=
  match getattr self name with
  | inr (AStrs l) => inr l
  | inr _ => inl TypeError
  | inl e => inl e
  end.

(** [get_importer_class] *)
Definition get_importer_class (LE_loadExp : Z) : result importer_class :=
  if LE_loadExp =? 3 then inr TillImporterOneWavelength
  else if LE_loadExp =? 4 then inr TillImporterTwoWavelength
  else if LE_loadExp =? 20 then inr LSMImporter
  else inl NotImplementedError.

(** [get_setup_extension] *)
Definition get_setup_extension (LE_loadExp : Z) : result attr :=
  match get_importer_class LE_loadExp with
  | inl e => inl e
  | inr importer_class => getattr (new importer_class ∅) "movie_data_extension"
  end.

(** ** The raw metadata sources *)

(** Modelled from the spec: [tillvisionio.vws.VWSDataManager], the reader of
    a vws.log file, is not part of the sources. Following the collaborator
    contract it holds the records of the file in file order, the two parallel
    record sequences of a two-wavelength acquisition, and the earliest
    timestamp; its extraction methods keep the records the filter accepts
    and add the injected columns to each of them. *)
Record VWSDataManager : Type := {
  measurements : list series;
  measurements_wl340 : list series;
  measurements_wl380 : list series;
  earliest_utc : value
}.

Definition with_additional_cols (additional_cols_func : series -> gmap string value)
  (s : series) : series :=
  additional_cols_func s ∪ s.

Definition get_all_metadata (m : VWSDataManager) (filter : series -> bool)
  (additional_cols_func : series -> gmap string value) : frame :=
  with_additional_cols additional_cols_func <$> List.filter filter (measurements m).

Definition get_metadata_two_wavelengths (m : VWSDataManager) (filter : series -> bool)
  (additional_cols_func : series -> gmap string value) : frame * frame :=
  (with_additional_cols additional_cols_func <$> List.filter filter (measurements_wl340 m),
   with_additional_cols additional_cols_func <$> List.filter filter (measurements_wl380 m)).

Definition get_earliest_utc (m : VWSDataManager) : value := earliest_utc m.

(** The entries of [tifffile.TiffFile(fle).lsm_metadata] that are read:
    [Tracks] lists, for every track, the wavelengths of its illumination
    channels. *)
Record lsm_metadata : Type := {
  ScanInformation_Name : value;
  ScanInformation_Tracks : list (list value);
  ScanInformation_Sample0time : float;
  TimeIntervall : float;
  VoxelSizeX : float;
  VoxelSizeY : float
}.

(** What [easygui.fileopenbox] returns: [None], one path, or a list of paths. *)
Inductive chosen : Type :=
  | ChosenNone
  | ChosenOne (fle : string)
  | ChosenMany (files : list string).

(** ** The importers *)

Fixpoint for_each {A S : Type} (l : list A) (body : S -> A -> M S) (s : S) : M S :=
  match l with
  | [] => ret s
  | a :: l' => do s' <- body s a; for_each l' body s'
  end.

Fixpoint enumerate_from {A : Type} (i : Z) (l : list A) : list (Z * A) :=
  match l with
  | [] => []
  | a :: l' => (i, a) :: enumerate_from (i + 1) l'
  end.

Definition enumerate {A : Type} (l : list A) : list (Z * A) := enumerate_from 0 l.

Definition warn_if (b : bool) (m : message) : M unit :=
  if b then log WARNING m else ret tt.

Section Importers.

(** [VWSDataManager(fle)] and [tifffile.TiffFile(fle).lsm_metadata]: the
    content of a file, or the error of reading it. *)
Variable vws_open : string -> result VWSDataManager.
Variable lsm_open : string -> result lsm_metadata.

(** [str(pd.to_timedelta(utc - first_utc, unit="s")).split(" days ")[1]] *)
Variable timedelta_clock : value -> value -> result string.

(** Modelled from the spec: [view.python_core.misc.excel_datetime] is not
    part of the sources; [excel_timestamp x] stands for
    [excel_datetime(x).timestamp()], the vendor date converted to seconds
    since the Unix epoch. *)
Variable excel_timestamp : float -> result float.

(** [get_default_row] *)
Definition get_default_row (self : instance) : result series :=
  match getattr self "default_values" with
  | inr (AMapping m) => inr m
  | inr _ => inl TypeError
  | inl e => inl e
  end.

(** [get_filetype_info_string] *)
Definition get_filetype_info_string (self : instance) : result (list string) :=
  match getattr_strs self "associated_extensions", getattr self "associate_file_type" with
  | inr exts, inr (AStr ft) => inr (((fun x => "*" +:+ x) <$> exts) ++ [ft])
  | inr _, inr _ => inl TypeError
  | inl e, _ | _, inl e => inl e
  end.

(** [TillImporter.get_path_relative_to_data_dir]: the loop over the movie
    data extensions with its [else] clause. *)
Fixpoint till_path_loop (extensions : list string) (fle : string)
  : result (Z * value) :=
  match extensions with
  | extension :: rest =>
      if PyStr.endswith fle extension
      then
        match WinPath.part_from_end 2 (WinPath.parts fle) with
        | inr parent =>
            let possible_dbb1 :=
              PosixPath.to_str (PosixPath.join (PosixPath.parse parent) (WinPath.stem fle)) in
            inr (1, VStr possible_dbb1)
        | inl e => inl e
        end
      else till_path_loop rest fle
  | [] => inr (0, VStr "wrong extension")
  end.

Definition TillImporter_get_path_relative_to_data_dir (self : instance) (fle : string)
  : result (Z * value) :=
  match getattr_strs self "movie_data_extensions" with
  | inr extensions => till_path_loop extensions fle
  | inl e => inl e
  end.

(** [LSMImporter.get_path_relative_to_data_dir] *)
Fixpoint lsm_path_loop (extensions : list string) (fle : string)
  : result (Z * value) :=
  match extensions with
  | movie_data_extension :: rest =>
      if PyStr.endswith fle movie_data_extension
      then
        let ps := WinPath.parts fle in
        match WinPath.part_from_end 3 ps, WinPath.part_from_end 2 ps with
        | inr p3, inr p2 =>
            inr (1, VStr (PosixPath.to_str
                            (PosixPath.join (PosixPath.join (PosixPath.parse p3) p2)
                                            (WinPath.stem fle))))
        | inl e, _ | _, inl e => inl e
        end
      else lsm_path_loop rest fle
  | [] => inr (0, VInt (-1))
  end.

Definition LSMImporter_get_path_relative_to_data_dir (self : instance) (fle : string)
  : result (Z * value) :=
  match getattr_strs self "movie_data_extensions" with
  | inr extensions => lsm_path_loop extensions fle
  | inl e => inl e
  end.

(** The location of the movie data as the log gives it, with the [t] that
    one version of the TillVision macro drops put back. *)
Definition expected_data_file_of (location : value) : M string :=
  match location with
  | VStr expected_data_file =>
      if bool_decide (PyStr.last_two expected_data_file = "ps")
      then run log WARNING AddingT; ret (expected_data_file +:+ "t")
      else ret expected_data_file
  | _ => raise TypeError
  end.

(** [TillImporter.convert_vws_names_to_lst_names] *)
Definition convert_vws_names_to_lst_names (self : instance)
  (vws_measurement_series : series) (default_row : series) : M frame :=
  do label <- lift (getitem vws_measurement_series "Label");
  run log INFO (ParsingMeasurementWithLabel label);
  let lst_line := default_row in
  do index <- lift (getitem vws_measurement_series "index");
  do measu <- lift (PyInt.succ index);
  let lst_line := <["Measu" := measu]> lst_line in
  do label <- lift (getitem vws_measurement_series "Label");
  let lst_line := <["Label" := label]> lst_line in
  do location <- lift (getitem vws_measurement_series "Location");
  do expected_data_file <- expected_data_file_of location;
  do resolved <-
    lift (TillImporter_get_path_relative_to_data_dir self expected_data_file);
  let '(analyze, dbb1_relative) := resolved in
  run warn_if (analyze =? 0) (DataFileNotFound expected_data_file);
  let lst_line := <["DBB1" := dbb1_relative]> lst_line in
  do default_analyze <- lift (PyInt.of_value (default (VInt 1) (lst_line !! "Analyze")));
  let lst_line := <["Analyze" := VInt (analyze * default_analyze)]> lst_line in
  do dt <- lift (getitem vws_measurement_series "dt");
  let lst_line := <["Cycle" := dt]> lst_line in
  do wl <- lift (getitem vws_measurement_series "MonochromatorWL_nm");
  let lst_line := <["Lambda" := wl]> lst_line in
  do utc <- lift (getitem vws_measurement_series "UTCTime");
  let lst_line := <["UTC" := utc]> lst_line in
  ret [lst_line].

(** [TillImporter.get_mtime] *)
Definition get_mtime (utc first_utc : value) : result string :=
  timedelta_clock utc first_utc.

(** [lst_line["MTime"] = self.get_mtime(utc=lst_line["UTC"][0], first_utc=first_utc)] *)
Definition set_mtime (first_utc : value) (lst_line : frame) : M frame :=
  do utcs <- lift (column "UTC" lst_line);
  do utc <- lift (item0 utcs);
  do mtime <- lift (get_mtime utc first_utc);
  ret (set_column "MTime" (VStr mtime) lst_line).

(** [TillImporterOneWavelength.read_single_measurement_metadata] *)
Definition TillImporterOneWavelength_read_single_measurement_metadata
  (self : instance) (fle : string) (fle_ind : Z) (measurement_filter : series -> bool)
  : M frame :=
  do vws_manager <- lift (vws_open fle);
  let measurements := get_all_metadata vws_manager measurement_filter additional_cols_func in
  let first_utc := get_earliest_utc vws_manager in
  run warn_if (length measurements =? 0)%nat (NoUsableMeasurements fle);
  for_each measurements
    (fun this_lst_frame measurement_row =>
       do default_row <- lift (get_default_row self);
       do lst_line <- convert_vws_names_to_lst_names self measurement_row default_row;
       do lst_line <- set_mtime first_utc lst_line;
       ret (this_lst_frame ++ lst_line))
    [].

(** [TillImporterTwoWavelength.read_single_measurement_metadata] *)
Definition TillImporterTwoWavelength_read_single_measurement_metadata
  (self : instance) (fle : string) (fle_ind : Z) (measurement_filter : series -> bool)
  : M frame :=
  do vws_manager <- lift (vws_open fle);
  let '(measurements_wl340_df, measurements_wl380_df) :=
    get_metadata_two_wavelengths vws_manager measurement_filter additional_cols_func in
  let first_utc := get_earliest_utc vws_manager in
  for_each (zip measurements_wl340_df measurements_wl380_df)
    (fun this_lst_frame '(measurement_wl340, measurement_wl380) =>
       do default_row <- lift (get_default_row self);
       do lst_line_wl340 <- convert_vws_names_to_lst_names self measurement_wl340 default_row;
       do default_row <- lift (get_default_row self);
       do lst_line_wl380 <- convert_vws_names_to_lst_names self measurement_wl380 default_row;
       do dbb1_wl380 <- lift (column "DBB1" lst_line_wl380);
       let lst_line_wl340 := assign_column "dbb2" dbb1_wl380 lst_line_wl340 in
       do lst_line_wl340 <- set_mtime first_utc lst_line_wl340;
       let lst_line_wl380 := set_column "Analyze" (VInt 0) lst_line_wl380 in
       do lst_line_wl380 <- set_mtime first_utc lst_line_wl380;
       let this_lst_frame := this_lst_frame ++ lst_line_wl340 in
       ret (this_lst_frame ++ lst_line_wl380))
    [].

(** [LSMImporter.convert_lsm_metadata_to_lst_row] *)
Definition convert_lsm_metadata_to_lst_row (self : instance) (measu : Z) (fle : string)
  (metadata : lsm_metadata) (default_row : series) : M frame :=
  let lst_line := default_row in
  let lst_line := <["Label" := ScanInformation_Name metadata]> lst_line in
  let lst_line :=
    <["Cycle" := VFloat (PyFloat.mul (TimeIntervall metadata) (PyFloat.of_Z 1000))]> lst_line in
  do wavelength <-
    lift match ScanInformation_Tracks metadata with
         | (w :: _) :: _ => inr w
         | _ => inl IndexError
         end;
  let lst_line := <["Lambda" := wavelength]> lst_line in
  do utc <- lift (excel_timestamp (ScanInformation_Sample0time metadata));
  let lst_line := <["UTC" := VFloat utc]> lst_line in
  let micro := PyFloat.of_decimal false 1 (-6) in
  let lst_line := <["PxSzX" := VFloat (PyFloat.div (VoxelSizeX metadata) micro)]> lst_line in
  let lst_line := <["PxSzY" := VFloat (PyFloat.div (VoxelSizeY metadata) micro)]> lst_line in
  do resolved <- lift (LSMImporter_get_path_relative_to_data_dir self fle);
  let '(analyze, dbb1_relative) := resolved in
  let lst_line := <["DBB1" := dbb1_relative]> lst_line in
  let lst_line := <["Analyze" := VInt analyze]> lst_line in
  let lst_line := <["Measu" := VInt measu]> lst_line in
  ret [lst_line].

(** [LSMImporter.read_single_measurement_metadata] *)
Definition LSMImporter_read_single_measurement_metadata
  (self : instance) (fle : string) (fle_ind : Z) (measurement_filter : series -> bool)
  : M frame :=
  do metadata <- lift (lsm_open fle);
  do default_row <- lift (get_default_row self);
  convert_lsm_metadata_to_lst_row self (fle_ind + 1) fle metadata default_row.

(** The dispatch of the abstract method on the class of [self]. *)
Definition read_single_measurement_metadata (self : instance)
  : string -> Z -> (series -> bool) -> M frame :=
  match class_of self with
  | TillImporterOneWavelength => TillImporterOneWavelength_read_single_measurement_metadata self
  | TillImporterTwoWavelength => TillImporterTwoWavelength_read_single_measurement_metadata self
  | LSMImporter => LSMImporter_read_single_measurement_metadata self
  end.

(** [BaseImporter.import_metadata] *)
Definition import_metadata (self : instance) (raw_data_files : list string)
  (measurement_filter : series -> bool) : M frame :=
  for_each (enumerate raw_data_files)
    (fun combined_df '(fle_ind, fle) =>
       run log INFO (ParsingMetadataFrom fle);
       do df <- read_single_measurement_metadata self fle fle_ind measurement_filter;
       ret (combined_df ++ df))
    [].

End Importers.

(** ** Choosing the raw data files *)

(** [TillImporter.get_animal_tag_raw_data_mapping] *)
Definition animal_tag_of (fle : string) : string :=
  let fle_path := PosixPath.parse fle in
  hd "" (PyStr.split "." (PosixPath.name fle_path)).

Definition TillImporter_get_animal_tag_raw_data_mapping (files_chosen : list string)
  : result (gmap string (list string)) :=
  if (length files_chosen =? 0)%nat then inr ∅
  else
    inr (fold_left
           (fun (dict2return : gmap string (list string)) fle =>
              <[animal_tag_of fle := [fle]]> dict2return)
           files_chosen ∅).

(** [LSMImporter.get_animal_tag_raw_data_mapping]; the message of its
    assertion is given up to the list of the chosen files that ends it. *)
Definition LSMImporter_get_animal_tag_raw_data_mapping (files_chosen : list string)
  : result (gmap string (list string)) :=
  if (length files_chosen =? 0)%nat then inr ∅
  else
    let parents := (fun fle => PosixPath.parent (PosixPath.parse fle)) <$> files_chosen in
    match parents with
    | parent0 :: _ =>
        if forallb (fun x => PosixPath.eqb x parent0) parents
        then inr (<[PosixPath.name (PosixPath.parent parent0) := files_chosen]> ∅)
        else inl (AssertionError
                    "LSM files specified for constructing measurement list file do no belong to the same directory")
    | [] => inl IndexError
    end.

Definition get_animal_tag_raw_data_mapping (self : instance)
  : list string -> result (gmap string (list string)) :=
  match class_of self with
  | TillImporterOneWavelength | TillImporterTwoWavelength =>
      TillImporter_get_animal_tag_raw_data_mapping
  | LSMImporter => LSMImporter_get_animal_tag_raw_data_mapping
  end.

Definition newline : string := String (ascii_of_nat 10) "".

(** The message of the assertion of [ask_for_files]. *)
Definition not_in_data_dir (default_dir : string) : string :=
  "The data selected in not in the expected data directory of the current tree:"
  +:+ newline +:+ default_dir +:+ ". Please copy your data there and try again!".

Section AskForFiles.

(** [easygui.fileopenbox], given the [LE_loadExp] shown in its title, the
    file types, [multiple] and the default pattern: [None], or the list of
    the chosen paths that it returns when [multiple] is true. *)
Variable fileopenbox : attr -> list string -> bool -> string -> option (list string).

(** [BaseImporter.ask_for_files] *)
Definition ask_for_files (self : instance) (default_dir : string) (multiple : bool)
  : M (gmap string (list string)) :=
  let default_dir_str := PosixPath.to_str (PosixPath.join (PosixPath.parse default_dir) "*") in
  do LE_loadExp <- lift (getattr self "LE_loadExp");
  do filetypes <- lift (get_filetype_info_string self);
  match fileopenbox LE_loadExp filetypes multiple default_dir_str with
  | None => raise (IOError "User Abort while choosing files.")
  | Some files_chosen =>
      do first <- lift match files_chosen with
                       | fle :: _ => inr fle
                       | [] => inl IndexError
                       end;
      if PyStr.startswith first default_dir
      then
        do animal_tag_raw_data_mapping <-
          lift (get_animal_tag_raw_data_mapping self files_chosen);
        run log INFO (WorkingOnAnimalTags animal_tag_raw_data_mapping);
        ret animal_tag_raw_data_mapping
      else raise (AssertionError (not_in_data_dir default_dir))
  end.

End AskForFiles.

(** ** Definitions used to state the properties *)

(** The tokens of a string that are separated by runs of whitespace, as the
    words of the specification read a timing list. *)
Fixpoint whitespace_tokens (cur : list ascii) (l : list ascii) : list string :=
  let flush := match cur with [] => [] | _ => [PyStr.of_chars (rev cur)] end in
  match l with
  | [] => flush
  | c :: l' => if PyStr.is_space c then flush ++ whitespace_tokens [] l'
               else whitespace_tokens (c :: cur) l'
  end.

Definition whitespace_separated (s : string) : list string :=
  whitespace_tokens [] (PyStr.chars s).

(** A token is numeric when [float] accepts it. *)
Definition numeric (tok : string) : bool :=
  match PyFloat.parse tok with inr _ => true | inl _ => false end.

(** The cells of a frame in the given columns. *)
Definition cells (cols : list string) (df : frame) : list (list (option value)) :=
  (fun r : series => (fun c => r !! c) <$> cols) <$> df.

(** The experiment-type code and the file types of a class. *)
Definition LE_loadExp_of (cls : importer_class) : Z :=
  match cls with
  | TillImporterOneWavelength => 3
  | TillImporterTwoWavelength => 4
  | LSMImporter => 20
  end.

Definition filetypes_of (cls : importer_class) : list string :=
  match cls with
  | TillImporterOneWavelength | TillImporterTwoWavelength => ["*.vws.log"; "VWS Log Files"]
  | LSMImporter => ["*.lsm"; "Zeiss LSM files"]
  end.

Definition movie_data_extensions_of (cls : importer_class) : list string :=
  match cls with
  | TillImporterOneWavelength | TillImporterTwoWavelength => [".pst"; ".ps"]
  | LSMImporter => [".lsm"]
  end.

(** A record of a vws.log file, as the reader of the log hands it over. *)
Definition vws_record (index : Z) (label location timing_ms : string) : series :=
  <["index" := VInt index]>
    (<["Label" := VStr label]>
       (<["Location" := VStr location]>
          (<["Timing_ms" := VStr timing_ms]>
             (<["MonochromatorWL_nm" := VInt 340]>
                (<["UTCTime" := VInt 1600000000]> ∅))))).

(** A log whose records were all taken at the earliest timestamp, for which
    the elapsed time reads [00:00:00]. *)
Definition vws_log (records wl340 wl380 : list series) : VWSDataManager :=
  {| measurements := records;
     measurements_wl340 := wl340;
     measurements_wl380 := wl380;
     earliest_utc := VInt 1600000000 |}.

Definition clock_at_earliest (utc first_utc : value) : result string :=
  inr "00:00:00".

Definition no_lsm (fle : string) : result lsm_metadata := inl (IOError fle).
Definition no_vws (fle : string) : result VWSDataManager := inl (IOError fle).
Definition excel_identity (x : float) : result float := inr x.

Definition accept_all (s : series) : bool := true.

(** The location the path is resolved from. *)
Definition amended_location (location : string) : string :=
  if bool_decide (PyStr.last_two location = "ps") then location +:+ "t" else location.

(** What a successful conversion read and what it wrote. *)
Inductive converted (self : instance) (s default_row : series) : series -> Prop :=
  | Converted (label index measu : value) (location : string) (analyze : Z)
      (dbb1 : value) (default_analyze : Z) (dt wavelength utc : value) :
      s !! "Label" = Some label ->
      s !! "index" = Some index ->
      PyInt.succ index = inr measu ->
      s !! "Location" = Some (VStr location) ->
      TillImporter_get_path_relative_to_data_dir self (amended_location location)
      = inr (analyze, dbb1) ->
      PyInt.of_value (default (VInt 1) (default_row !! "Analyze")) = inr default_analyze ->
      s !! "dt" = Some dt ->
      s !! "MonochromatorWL_nm" = Some wavelength ->
      s !! "UTCTime" = Some utc ->
      converted self s default_row
        (<["UTC" := utc]>
           (<["Lambda" := wavelength]>
              (<["Cycle" := dt]>
                 (<["Analyze" := VInt (analyze * default_analyze)]>
                    (<["DBB1" := dbb1]>
                       (<["Label" := label]>
                          (<["Measu" := measu]> default_row))))))).

(** The row of one record of a one-wavelength log. *)
Definition one_wavelength_row (self : instance) (default_values : gmap string value)
  (s : series) (df : frame) : Prop :=
  exists (row : series) (mtime : string),
    converted self s default_values row
    /\ df = [<["MTime" := VStr mtime]> row].

(** The two rows of one pair of records of a two-wavelength log. *)
Definition two_wavelength_rows (self : instance) (default_values : gmap string value)
  (pair : series * series) (df : frame) : Prop :=
  exists (row340 row380 : series) (mtime340 mtime380 : string) (dbb1_wl380 : value),
    converted self (fst pair) default_values row340
    /\ converted self (snd pair) default_values row380
    /\ row380 !! "DBB1" = Some dbb1_wl380
    /\ df = [<["MTime" := VStr mtime340]> (<["dbb2" := dbb1_wl380]> row340);
             <["MTime" := VStr mtime380]> (<["Analyze" := VInt 0]> row380)].

(** The pair of rows made from a pair of records of the two wavelengths:
    the companion row is not analyzed, whatever its path resolved to, and the
    first row carries the path of the companion as [dbb2]. *)
Definition companion_pair (self : instance) (s r : series * series) : Prop :=
  r.2 !! "Analyze" = Some (VInt 0)
  /\ (exists (location : string) (analyze : Z) (dbb1 : value),
        s.2 !! "Location" = Some (VStr location)
        /\ TillImporter_get_path_relative_to_data_dir self (amended_location location)
           = inr (analyze, dbb1)
        /\ r.2 !! "DBB1" = Some dbb1
        /\ r.1 !! "dbb2" = Some dbb1)
  /\ (exists (location : string) (analyze : Z) (dbb1 : value),
        s.1 !! "Location" = Some (VStr location)
        /\ TillImporter_get_path_relative_to_data_dir self (amended_location location)
           = inr (analyze, dbb1)
        /\ r.1 !! "DBB1" = Some dbb1)
  /\ r.1 !! "Label" = s.1 !! "Label"
  /\ r.2 !! "Label" = s.2 !! "Label".

(** The rows of a list of pairs, channel 1 then channel 2. *)
Definition interleave (pairs : list (series * series)) : frame :=
  flat_map (fun p : series * series => [p.1; p.2]) pairs.

(** A two-wavelength log with one pair of records, both with a movie file. *)
Definition two_wavelength_log : VWSDataManager :=
  vws_log []
    [vws_record 0 "odor" "C:\data\animal\a340.pst" "0 100 200"]
    [vws_record 1 "odor" "C:\data\animal\a380.pst" "0 100 200"].

(** The records of a log that the filter accepts, and the pairs of accepted
    records of the two wavelengths; a file that cannot be read has none. *)
Definition surviving_records (vws_open : string -> result VWSDataManager)
  (measurement_filter : series -> bool) (fle : string) : list series :=
  match vws_open fle with
  | inr m => List.filter measurement_filter (measurements m)
  | inl _ => []
  end.

Definition paired_records (vws_open : string -> result VWSDataManager)
  (measurement_filter : series -> bool) (fle : string) : list (series * series) :=
  match vws_open fle with
  | inr m => zip (List.filter measurement_filter (measurements_wl340 m))
                 (List.filter measurement_filter (measurements_wl380 m))
  | inl _ => []
  end.

Definition both_channels (p : series * series) : list series := [p.1; p.2].

(** The row carries the index of its record, plus one, as [Measu]. *)
Definition numbered_by_index (s row : series) : Prop :=
  exists index measu : value,
    s !! "index" = Some index
    /\ PyInt.succ index = inr measu
    /\ row !! "Measu" = Some measu.

(** Two logs of one record each, both numbered from 0 by the reader. *)
Definition two_logs (fle : string) : result VWSDataManager :=
  inr (vws_log [vws_record 0 fle "C:\data\animal\movie.pst" "0 100 200 300"] [] []).

(** The metadata of an LSM file and a reader that finds it in every file. *)
Definition lsm_sample : lsm_metadata :=
  {| ScanInformation_Name := VStr "scan";
     ScanInformation_Tracks := [[VInt 488]];
     ScanInformation_Sample0time := PyFloat.of_Z 43000;
     TimeIntervall := PyFloat.of_decimal false 5 (-1);
     VoxelSizeX := PyFloat.of_decimal false 2 (-7);
     VoxelSizeY := PyFloat.of_decimal false 2 (-7) |}.

Definition lsm_reader (fle : string) : result lsm_metadata := inr lsm_sample.

(** The files of a subject: those whose name has the tag before its first
    period. *)
Definition files_of_tag (tag : string) (files : list string) : list string :=
  filter (fun fle => animal_tag_of fle = tag) files.

(** What the file dialog answers when [ask_for_files] opens it. *)
Definition dialog_answer
  (fileopenbox : attr -> list string -> bool -> string -> option (list string))
  (cls : importer_class) (default_dir : string) (multiple : bool)
  : option (list string) :=
  fileopenbox (AInt (LE_loadExp_of cls)) (filetypes_of cls) multiple
    (PosixPath.to_str (PosixPath.join (PosixPath.parse default_dir) "*")).

(** A dialog in which one file of the data directory and one file from
    elsewhere were chosen. *)
Definition one_file_elsewhere (LE_loadExp : attr) (filetypes : list string)
  (multiple : bool) (default : string) : option (list string) :=
  Some ["/data/bee1.vws.log"; "/elsewhere/bee2.vws.log"].

Definition first_file_elsewhere (LE_loadExp : attr) (filetypes : list string)
  (multiple : bool) (default : string) : option (list string) :=
  Some ["/elsewhere/bee2.vws.log"; "/data/bee1.vws.log"].


(** A two-wavelength log with two records of the first wavelength and one
    of the second. *)
Definition unpaired_log : VWSDataManager :=
  vws_log []
    [vws_record 0 "odor" "C:\data\animal\a340.pst" "0 100 200";
     vws_record 2 "air" "C:\data\animal\b340.pst" "0 100 200"]
    [vws_record 1 "odor" "C:\data\animal\a380.pst" "0 100 200"].

(** A reader that fails on the file [broken.vws.log]. *)
Definition one_broken_log (fle : string) : result VWSDataManager :=
  if bool_decide (fle = "broken.vws.log") then inl (IOError fle) else two_logs fle.

(** A dialog in which a file of a directory beside the data directory was
    chosen, whose path starts with the characters of the data directory. *)
Definition file_beside_data_dir (LE_loadExp : attr) (filetypes : list string)
  (multiple : bool) (default : string) : option (list string) :=
  Some ["/data2/bee1.vws.log"].

(** The columns that the rows of an importer are given a value for. *)
Definition written_columns (cls : importer_class) : list string :=
  match cls with
  | TillImporterOneWavelength =>
      ["Measu"; "Label"; "DBB1"; "Analyze"; "Cycle"; "Lambda"; "UTC"; "MTime"]
  | TillImporterTwoWavelength =>
      ["Measu"; "Label"; "DBB1"; "Analyze"; "Cycle"; "Lambda"; "UTC"; "MTime"; "dbb2"]
  | LSMImporter =>
      ["Label"; "Cycle"; "Lambda"; "UTC"; "PxSzX"; "PxSzY"; "DBB1"; "Analyze"; "Measu"]
  end.

(** A row that has the values of the default row in all other columns. *)
Definition keeps_defaults (cls : importer_class) (default_values : gmap string value)
  (row : series) : Prop :=
  forall column : string,
    column ∉ written_columns cls -> row !! column = default_values !! column.

(** A location with its forward slashes written as backslashes. *)
Definition with_backslashes (location : string) : string :=
  PyStr.replace WinPath.altsep WinPath.sep location.

(** ** Computations: results and logs *)

Lemma bind_inr {A B : Type} (m : M A) (k : A -> M B) (b : B) :
  outcome (bind m k) = inr b ->
  exists a, outcome m = inr a /\ outcome (k a) = inr b.
Proof.
  destruct m as [l [e | a]]; simpl; [discriminate |].
  destruct (k a) as [l' r] eqn:E. simpl. intros ->.
  exists a. rewrite E. auto.
Qed.

Lemma bind_ok {A B : Type} (m : M A) (k : A -> M B) (a : A) :
  outcome m = inr a -> outcome (bind m k) = outcome (k a).
Proof.
  destruct m as [l [e | a']]; simpl; [discriminate |].
  intros [= ->]. now destruct (k a).
Qed.

Lemma bind_err {A B : Type} (m : M A) (k : A -> M B) (e : exn) :
  outcome m = inl e -> outcome (bind m k) = inl e.
Proof. destruct m as [l [e' | a]]; simpl; congruence. Qed.

Lemma outcome_lift {A : Type} (r : result A) : outcome (lift r) = r.
Proof. reflexivity. Qed.

Lemma outcome_ret {A : Type} (a : A) : outcome (ret a) = inr a.
Proof. reflexivity. Qed.

Lemma outcome_log (l : level) (m : message) : outcome (log l m) = inr tt.
Proof. reflexivity. Qed.

Lemma outcome_warn_if (b : bool) (m : message) : outcome (warn_if b m) = inr tt.
Proof. now destruct b. Qed.

Lemma logged_bind {A B : Type} (m : M A) (k : A -> M B) (a : A) :
  outcome m = inr a -> logged (bind m k) = logged m ++ logged (k a).
Proof.
  destruct m as [l [e | a']]; simpl; [discriminate |].
  intros [= ->]. now destruct (k a).
Qed.

(** Inversion of a successful computation, one statement at a time. *)
Tactic Notation "step" hyp(H) "as" ident(x) ident(Hx) :=
  apply bind_inr in H; destruct H as (x & Hx & H);
  try rewrite outcome_lift in Hx.

(** Closed equations are checked by evaluation; the value of a computation
    that is known to succeed is read off its outcome. *)
Ltac by_evaluation :=
  lazymatch goal with
  | |- ?a = ?b => exact (eq_refl b <: a = b)
  end.

Ltac exists_outcome default :=
  lazymatch goal with
  | |- ex (fun t => outcome ?m = inr t /\ _) =>
      exists (match outcome m with inr t => t | inl _ => default end)
  end.

Lemma mapM_Forall2 {A B : Type} (f : A -> result B) (l : list A) (bs : list B) :
  mapM f l = inr bs <-> Forall2 (fun a b => f a = inr b) l bs.
Proof.
  revert bs. induction l as [| a l IH]; intros bs; simpl.
  - split.
    + intros [= <-]. constructor.
    + intros H. inversion H. reflexivity.
  - split.
    + destruct (f a) as [e | b] eqn:Ea; [discriminate |].
      destruct (mapM f l) as [e | bs'] eqn:El; [discriminate |].
      intros [= <-]. constructor; [assumption |]. now apply IH.
    + intros H. inversion H as [| ? b ? bs' Hb Hbs]; subst.
      rewrite Hb. apply IH in Hbs. now rewrite Hbs.
Qed.

(** ** The importer classes *)

Lemma getattr_LE_loadExp (cls : importer_class) (dv : gmap string value) :
  getattr (new cls dv) "LE_loadExp" = inr (AInt (LE_loadExp_of cls)).
Proof. destruct cls; vm_compute; reflexivity. Qed.

Lemma getattr_movie_data_extensions (cls : importer_class) (dv : gmap string value) :
  getattr_strs (new cls dv) "movie_data_extensions" = inr (movie_data_extensions_of cls).
Proof. destruct cls; vm_compute; reflexivity. Qed.

Lemma getattr_default_values (cls : importer_class) (dv : gmap string value) :
  getattr (new cls dv) "default_values" = inr (AMapping dv).
Proof. destruct cls; vm_compute; reflexivity. Qed.

Lemma get_filetype_info_string_new (cls : importer_class) (dv : gmap string value) :
  get_filetype_info_string (new cls dv) = inr (filetypes_of cls).
Proof. destruct cls; vm_compute; reflexivity. Qed.

Lemma class_of_new (cls : importer_class) (dv : gmap string value) :
  class_of (new cls dv) = cls.
Proof. now destruct cls. Qed.

(** C8: the importer selection returns the one-wavelength Till importer for
    the experiment-type code 3, the two-wavelength Till importer for 4 and the
    LSM importer for 20, and raises [NotImplementedError] for every other
    code. *)
Theorem get_importer_class_selects :
  get_importer_class 3 = inr TillImporterOneWavelength
  /\ get_importer_class 4 = inr TillImporterTwoWavelength
  /\ get_importer_class 20 = inr LSMImporter
  /\ forall code : Z,
       code <> 3 -> code <> 4 -> code <> 20 ->
       get_importer_class code = inl NotImplementedError.
Proof.
  repeat split; try reflexivity.
  intros code H3 H4 H20. unfold get_importer_class.
  destruct (Z.eqb_spec code 3); [contradiction |].
  destruct (Z.eqb_spec code 4); [contradiction |].
  destruct (Z.eqb_spec code 20); [contradiction |].
  reflexivity.
Qed.

Lemma get_importer_class_selects_witness :
  get_importer_class 3 = inr TillImporterOneWavelength
  /\ get_importer_class 7 = inl NotImplementedError.
Proof.
  split.
  - exact (proj1 get_importer_class_selects).
  - apply (proj2 (proj2 (proj2 get_importer_class_selects))); discriminate.
Defined.

(** C9: for each supported experiment-type code, 3, 4 and 20,
    [get_setup_extension] raises [AttributeError]: it reads the attribute
    [movie_data_extension], and an instance of every importer class, whatever
    its default values, has the attribute [movie_data_extensions] but none
    named [movie_data_extension]. *)
Theorem get_setup_extension_raises :
  get_setup_extension 3 = inl AttributeError
  /\ get_setup_extension 4 = inl AttributeError
  /\ get_setup_extension 20 = inl AttributeError
  /\ forall (cls : importer_class) (dv : gmap string value),
       getattr (new cls dv) "movie_data_extension" = inl AttributeError
       /\ getattr (new cls dv) "movie_data_extensions"
          = inr (AStrs (movie_data_extensions_of cls)).
Proof.
  repeat split; try (vm_compute; reflexivity);
    destruct cls; vm_compute; reflexivity.
Qed.

(** ** The timing of a measurement *)

Lemma truediv_int_nonzero (x : float) (n : Z) :
  n <> 0 -> PyFloat.truediv_int x n = inr (PyFloat.div x (PyFloat.of_Z n)).
Proof.
  intros Hn. unfold PyFloat.truediv_int.
  destruct (Z.eqb_spec n 0); [contradiction | reflexivity].
Qed.

Lemma calculate_dt_of_times (timing_ms : string) (t0 : float) (rest : list float) :
  mapM PyFloat.parse (PyStr.split " " (PyStr.strip timing_ms)) = inr (t0 :: rest) ->
  calculate_dt_from_timing_ms timing_ms
  = PyFloat.truediv_int (PyFloat.sub (List.last (t0 :: rest) t0) t0)
                        (Z.of_nat (length (t0 :: rest)) - 1).
Proof. intros H. unfold calculate_dt_from_timing_ms. now rewrite H. Qed.

(** A list of one timestamp divides by zero. *)
Lemma calculate_dt_single (timing_ms : string) (t0 : float) :
  mapM PyFloat.parse (PyStr.split " " (PyStr.strip timing_ms)) = inr [t0] ->
  calculate_dt_from_timing_ms timing_ms = inl ZeroDivisionError.
Proof. intros H. rewrite (calculate_dt_of_times _ _ _ H). reflexivity. Qed.

(** A token that is no float literal raises [ValueError]. *)
Lemma parse_error (tok : string) (e : exn) :
  PyFloat.parse tok = inl e -> e = ValueError.
Proof.
  unfold PyFloat.parse.
  destruct (match PyStr.strip_chars (PyStr.chars tok) with
            | [] => None
            | c :: l' => _
            end); congruence.
Qed.

Lemma mapM_parse_not_numeric (toks : list string) :
  existsb (fun tok => negb (numeric tok)) toks = true ->
  mapM PyFloat.parse toks = inl ValueError.
Proof.
  induction toks as [| tok toks IH]; simpl; [discriminate |].
  unfold numeric at 1.
  destruct (PyFloat.parse tok) as [e | f] eqn:E; simpl.
  - intros _. now rewrite (parse_error _ _ E).
  - intros H. now rewrite (IH H).
Qed.

Lemma calculate_dt_not_numeric (timing_ms : string) :
  existsb (fun tok => negb (numeric tok)) (PyStr.split " " (PyStr.strip timing_ms)) = true ->
  calculate_dt_from_timing_ms timing_ms = inl ValueError.
Proof.
  intros H. unfold calculate_dt_from_timing_ms.
  now rewrite (mapM_parse_not_numeric _ H).
Qed.

Lemma last_default {A : Type} (l : list A) (d : A) :
  l <> [] -> last l = Some (List.last l d).
Proof.
  induction l as [| a [| b l] IH]; intros H; [contradiction | reflexivity |].
  change (last (b :: l) = Some (List.last (b :: l) d)). now apply IH.
Qed.

(** C3: a timing string that, stripped of the whitespace around it, consists
    of at least two numeric timestamps separated by single spaces has the
    interval (last - first) / (count - 1), in float arithmetic. *)
Theorem calculate_dt_from_timing_ms_interval
  (timing_ms : string) (times : list float) :
  Forall2 (fun tok t => PyFloat.parse tok = inr t)
          (PyStr.split " " (PyStr.strip timing_ms)) times ->
  (2 <= length times)%nat ->
  exists first_timing last_timing : float,
    head times = Some first_timing
    /\ last times = Some last_timing
    /\ calculate_dt_from_timing_ms timing_ms
       = inr (PyFloat.div (PyFloat.sub last_timing first_timing)
                          (PyFloat.of_Z (Z.of_nat (length times) - 1))).
Proof.
  intros Htimes Hlen. apply mapM_Forall2 in Htimes.
  destruct times as [| t0 rest]; [simpl in Hlen; lia |].
  exists t0, (List.last (t0 :: rest) t0). split; [reflexivity |]. split.
  - now apply last_default.
  - rewrite (calculate_dt_of_times _ _ _ Htimes).
    apply truediv_int_nonzero. simpl length in *. lia.
Qed.

(** The timings [0 100 200 300] give the interval 100.0. *)
Lemma calculate_dt_from_timing_ms_interval_witness :
  calculate_dt_from_timing_ms "0 100 200 300" = PyFloat.parse "100.0".
Proof.
  destruct (calculate_dt_from_timing_ms_interval "0 100 200 300"
              [PyFloat.of_Z 0; PyFloat.of_Z 100; PyFloat.of_Z 200; PyFloat.of_Z 300])
    as (t0 & tn & H0 & Hn & ->).
  - repeat constructor.
  - simpl. lia.
  - injection H0 as <-. injection Hn as <-. reflexivity.
Defined.

(** Two timestamps separated by two spaces are two numeric
    whitespace-separated timestamps, and their interval is not computed: the
    empty piece between the spaces is no float literal. *)
Lemma calculate_dt_two_spaces :
  whitespace_separated "0  100" = ["0"; "100"]
  /\ forallb numeric (whitespace_separated "0  100") = true
  /\ PyStr.split " " (PyStr.strip "0  100") = ["0"; ""; "100"]
  /\ calculate_dt_from_timing_ms "0  100" = inl ValueError.
Proof. repeat split; vm_compute; reflexivity. Qed.

(** ** The conversion of a vws.log record *)

Lemma getitem_insert_ne (s : series) (k k' : string) (v : value) :
  k <> k' -> getitem (<[k := v]> s) k' = getitem s k'.
Proof. intros H. unfold getitem. now rewrite lookup_insert_ne. Qed.

Lemma getitem_Some (s : series) (k : string) (v : value) :
  getitem s k = inr v <-> s !! k = Some v.
Proof. unfold getitem. destruct (s !! k); split; congruence. Qed.

Lemma outcome_expected_data_file_of (location : string) :
  outcome (expected_data_file_of (VStr location)) = inr (amended_location location).
Proof.
  unfold expected_data_file_of, amended_location.
  now destruct (bool_decide (PyStr.last_two location = "ps")).
Qed.


Lemma convert_vws_names_to_lst_names_inv (self : instance) (s default_row : series)
  (df : frame) :
  outcome (convert_vws_names_to_lst_names self s default_row) = inr df ->
  exists row, df = [row] /\ converted self s default_row row.
Proof.
  intros H. unfold convert_vws_names_to_lst_names in H.
  step H as label Hlabel. step H as u Hu.
  step H as index Hindex. step H as measu Hmeasu.
  step H as label' Hlabel'. step H as location Hlocation.
  step H as expected_data_file Hexpected. step H as resolved Hresolved.
  destruct resolved as [analyze dbb1_relative].
  step H as u' Hu'. step H as default_analyze Hdefault.
  step H as dt Hdt. step H as wl Hwl. step H as utc Hutc.
  rewrite outcome_ret in H. injection H as <-.
  destruct location as [z | f | location]; try discriminate Hexpected.
  rewrite outcome_expected_data_file_of in Hexpected. injection Hexpected as <-.
  rewrite !lookup_insert_ne in Hdefault by done.
  apply getitem_Some in Hlabel, Hlabel', Hindex, Hlocation, Hdt, Hwl, Hutc.
  rewrite Hlabel in Hlabel'. injection Hlabel' as <-.
  eexists. split; [reflexivity |].
  econstructor; eassumption.
Qed.

(** The conversion does not read the [Analyze] column of the record. *)
Lemma convert_ignores_record_analyze (self : instance) (s default_row : series)
  (analyze : value) :
  convert_vws_names_to_lst_names self (<["Analyze" := analyze]> s) default_row
  = convert_vws_names_to_lst_names self s default_row.
Proof.
  unfold convert_vws_names_to_lst_names.
  now rewrite !getitem_insert_ne by done.
Qed.

(** A record whose timing cannot be computed gets [dt = -1] and
    [Analyze = 0] injected. *)
Lemma additional_cols_func_failure (s : series) (timing_ms : string) (e : exn) :
  s !! "Timing_ms" = Some (VStr timing_ms) ->
  calculate_dt_from_timing_ms timing_ms = inl e ->
  additional_cols_func s = <["dt" := VInt (-1)]> (<["Analyze" := VInt 0]> ∅).
Proof.
  intros Hs He. unfold additional_cols_func, getitem. now rewrite Hs, He.
Qed.

(** The two injected columns, laid over the record. *)
Lemma with_additional_cols_inserts (s : series) :
  exists dt analyze : value,
    with_additional_cols additional_cols_func s
    = <["dt" := dt]> (<["Analyze" := analyze]> s)
    /\ additional_cols_func s !! "dt" = Some dt
    /\ additional_cols_func s !! "Analyze" = Some analyze.
Proof.
  unfold with_additional_cols, additional_cols_func.
  destruct (match getitem s "Timing_ms" with
            | inl e => inl e
            | inr (VStr timing_ms) => calculate_dt_from_timing_ms timing_ms
            | inr _ => inl AttributeError
            end) as [e | dt];
    eexists _, _; (split; [| split; reflexivity]);
    now rewrite <- !insert_union_l, (left_id_L ∅ (∪)).
Qed.

(** C1: the one-wavelength import of a log with one record whose timing list
    holds a single timestamp does not fail and gives the row the cycle -1;
    the [Analyze = 0] that [additional_cols_func] injects is not read by the
    conversion, and with a resolved movie path the row keeps [Analyze = 1]. *)
Theorem timing_failure_keeps_analyze :
  calculate_dt_from_timing_ms "5" = inl ZeroDivisionError
  /\ additional_cols_func (vws_record 0 "odor" "C:\data\animal\movie.pst" "5")
     = <["dt" := VInt (-1)]> (<["Analyze" := VInt 0]> ∅)
  /\ exists table : frame,
       outcome (import_metadata
                  (fun _ => inr (vws_log [vws_record 0 "odor" "C:\data\animal\movie.pst" "5"] [] []))
                  no_lsm clock_at_earliest excel_identity
                  (new TillImporterOneWavelength ∅) ["animal.vws.log"] accept_all)
       = inr table
       /\ cells ["Cycle"; "Analyze"; "DBB1"] table
          = [[Some (VInt (-1)); Some (VInt 1); Some (VStr "animal/movie")]].
Proof.
  split; [reflexivity |]. split.
  - now apply (additional_cols_func_failure _ "5" ZeroDivisionError).
  - exists_outcome (@nil series). split; by_evaluation.
Qed.

(** ** The path of the movie data *)

Lemma chars_of_chars (l : list ascii) : PyStr.chars (PyStr.of_chars l) = l.
Proof. apply list_ascii_of_string_of_list_ascii. Qed.

Lemma of_chars_chars (s : string) : PyStr.of_chars (PyStr.chars s) = s.
Proof. apply string_of_list_ascii_of_string. Qed.

Lemma chars_append (s t : string) :
  PyStr.chars (s +:+ t) = PyStr.chars s ++ PyStr.chars t.
Proof. induction s as [| c s IH]; simpl; [reflexivity | now f_equal]. Qed.

Lemma ascii_eqb_true (a b : ascii) : Ascii.eqb a b = true -> a = b.
Proof. apply Ascii.eqb_eq. Qed.

(** A string that ends in [.ps] has [ps] as its last two characters. *)
Lemma endswith_ps_last_two (location : string) :
  PyStr.endswith location ".ps" = true -> PyStr.last_two location = "ps".
Proof.
  unfold PyStr.endswith, PyStr.last_two.
  assert (Hrev : PyStr.chars location = rev (rev (PyStr.chars location)))
    by now rewrite rev_involutive.
  change (rev (PyStr.chars ".ps")) with ["s"; "p"; "."]%char.
  intros H.
  destruct (rev (PyStr.chars location)) as [| a [| b [| c r]]];
    cbn [PyStr.starts_chars] in H; try discriminate H;
    apply andb_prop in H as [Ha H]; try discriminate H;
    apply andb_prop in H as [Hb H]; try discriminate H.
  apply ascii_eqb_true in Ha, Hb. subst a b.
  rewrite Hrev. simpl rev.
  replace (length (((rev r ++ [c]) ++ ["p"%char]) ++ ["s"%char]) - 2)%nat
    with (length (rev r ++ [c])) by (rewrite !length_app; simpl; lia).
  rewrite <- !app_assoc. rewrite (app_assoc (rev r)).
  now rewrite drop_app_length.
Qed.

(** With the [t] put back, the location ends in [.pst]. *)
Lemma endswith_ps_amended (location : string) :
  PyStr.endswith location ".ps" = true ->
  PyStr.endswith (location +:+ "t") ".pst" = true.
Proof.
  unfold PyStr.endswith. rewrite chars_append, rev_app_distr. simpl.
  now intros ->.
Qed.

Lemma till_path_loop_recognized (fle parent : string) :
  PyStr.endswith fle ".pst" || PyStr.endswith fle ".ps" = true ->
  WinPath.part_from_end 2 (WinPath.parts fle) = inr parent ->
  till_path_loop [".pst"; ".ps"] fle
  = inr (1, VStr (PosixPath.to_str
                    (PosixPath.join (PosixPath.parse parent) (WinPath.stem fle)))).
Proof.
  intros Hext Hparent. simpl. rewrite Hparent.
  destruct (PyStr.endswith fle ".pst"); [reflexivity |].
  simpl in Hext. now rewrite Hext.
Qed.

Lemma till_path_loop_no_parent (fle : string) :
  PyStr.endswith fle ".pst" || PyStr.endswith fle ".ps" = true ->
  (length (WinPath.parts fle) < 2)%nat ->
  till_path_loop [".pst"; ".ps"] fle = inl IndexError.
Proof.
  intros Hext Hlen. simpl.
  assert (Hparent : WinPath.part_from_end 2 (WinPath.parts fle) = inl IndexError).
  { unfold WinPath.part_from_end.
    destruct (Nat.ltb_spec (length (WinPath.parts fle)) 2); [reflexivity | lia]. }
  rewrite Hparent.
  destruct (PyStr.endswith fle ".pst"); [reflexivity |].
  simpl in Hext. now rewrite Hext.
Qed.

Lemma till_path_loop_unrecognized (fle : string) :
  PyStr.endswith fle ".pst" || PyStr.endswith fle ".ps" = false ->
  till_path_loop [".pst"; ".ps"] fle = inr (0, VStr "wrong extension").
Proof.
  intros Hext. apply orb_false_elim in Hext as [H1 H2]. simpl. now rewrite H1, H2.
Qed.

Lemma till_extensions (cls : importer_class) (dv : gmap string value) (fle : string) :
  cls <> LSMImporter ->
  TillImporter_get_path_relative_to_data_dir (new cls dv) fle
  = till_path_loop [".pst"; ".ps"] fle.
Proof.
  intros Hcls. unfold TillImporter_get_path_relative_to_data_dir.
  rewrite getattr_movie_data_extensions. now destruct cls.
Qed.

(** C5: in the Till importers, a raw location that ends in [.ps] gets a [t]
    appended, with a warning logged, and the path is resolved from the result,
    which ends in [.pst]; a location that ends in a movie data extension and
    has a parent part resolves to 1 and the parent part joined with the stem
    of the file name; a location that ends in no movie data extension
    resolves to 0 and ["wrong extension"]. *)
Theorem till_path_resolution
  (cls : importer_class) (dv : gmap string value) (location : string) :
  cls <> LSMImporter ->
  (PyStr.endswith location ".ps" = true ->
   expected_data_file_of (VStr location) = ([(WARNING, AddingT)], inr (location +:+ "t"))
   /\ PyStr.endswith (location +:+ "t") ".pst" = true)
  /\ (forall parent : string,
        PyStr.endswith location ".pst" || PyStr.endswith location ".ps" = true ->
        WinPath.part_from_end 2 (WinPath.parts location) = inr parent ->
        TillImporter_get_path_relative_to_data_dir (new cls dv) location
        = inr (1, VStr (PosixPath.to_str
                          (PosixPath.join (PosixPath.parse parent)
                                          (WinPath.stem location)))))
  /\ (PyStr.endswith location ".pst" || PyStr.endswith location ".ps" = false ->
      TillImporter_get_path_relative_to_data_dir (new cls dv) location
      = inr (0, VStr "wrong extension")).
Proof.
  intros Hcls. repeat split.
  - unfold expected_data_file_of. now rewrite (endswith_ps_last_two _ H).
  - now apply endswith_ps_amended.
  - intros parent Hext Hparent. rewrite till_extensions by assumption.
    now apply till_path_loop_recognized.
  - intros Hext. rewrite till_extensions by assumption.
    now apply till_path_loop_unrecognized.
Qed.

(** A location written without its last [t] resolves to the name of its
    directory joined with the stem of its file name. *)
Lemma till_path_resolution_witness :
  expected_data_file_of (VStr "C:\data\animal\movie.ps")
  = ([(WARNING, AddingT)], inr "C:\data\animal\movie.pst")
  /\ TillImporter_get_path_relative_to_data_dir
       (new TillImporterOneWavelength ∅) "C:\data\animal\movie.pst"
     = inr (1, VStr "animal/movie")
  /\ TillImporter_get_path_relative_to_data_dir
       (new TillImporterOneWavelength ∅) "C:\data\animal\movie.tif"
     = inr (0, VStr "wrong extension").
Proof.
  assert (Hcls : TillImporterOneWavelength <> LSMImporter) by discriminate.
  split; [| split].
  - apply (proj1 (till_path_resolution TillImporterOneWavelength ∅
                    "C:\data\animal\movie.ps" Hcls)).
    reflexivity.
  - apply (proj1 (proj2 (till_path_resolution TillImporterOneWavelength ∅
                           "C:\data\animal\movie.pst" Hcls)) "animal");
      reflexivity.
  - apply (proj2 (proj2 (till_path_resolution TillImporterOneWavelength ∅
                           "C:\data\animal\movie.tif" Hcls))).
    reflexivity.
Defined.

(** A location that is a bare file name ends in a movie data extension and
    does not resolve: it has no parent part, and the resolution raises
    [IndexError]. *)
Lemma till_path_without_parent :
  PyStr.endswith "movie.pst" ".pst" = true
  /\ WinPath.parts "movie.pst" = ["movie.pst"]
  /\ TillImporter_get_path_relative_to_data_dir
       (new TillImporterOneWavelength ∅) "movie.pst"
     = inl IndexError.
Proof. repeat split; vm_compute; reflexivity. Qed.

(** ** Loops that append to a frame *)

Lemma for_each_append_inv {A R : Type} (P : A -> list R -> Prop)
  (body : list R -> A -> M (list R)) :
  (forall acc x t, outcome (body acc x) = inr t -> exists r, t = acc ++ r /\ P x r) ->
  forall (l : list A) (acc t : list R),
    outcome (for_each l body acc) = inr t ->
    exists rs, t = acc ++ concat rs /\ Forall2 P l rs.
Proof.
  intros Hbody. induction l as [| x l IH]; intros acc t H; cbn [for_each] in H.
  - rewrite outcome_ret in H. injection H as <-.
    exists []. split; [now rewrite app_nil_r | constructor].
  - apply bind_inr in H as (acc' & Hx & H).
    apply Hbody in Hx as (r & -> & Hr).
    apply IH in H as (rs & -> & Hrs).
    exists (r :: rs). split; [now rewrite <- app_assoc | now constructor].
Qed.

Lemma for_each_nil {A S : Type} (body : S -> A -> M S) (s : S) :
  for_each [] body s = ([], inr s).
Proof. reflexivity. Qed.

Lemma length_concat_Forall2 {A R : Type} (n : A -> nat) (l : list A) (rs : list (list R)) :
  Forall2 (fun x r => length r = n x) l rs ->
  length (concat rs) = sum_list_with n l.
Proof.
  induction 1 as [| x r l rs Hr _ IH]; simpl; [reflexivity |].
  now rewrite length_app, Hr, IH.
Qed.

Section ImportProperties.

Variable vws_open : string -> result VWSDataManager.
Variable lsm_open : string -> result lsm_metadata.
Variable timedelta_clock : value -> value -> result string.
Variable excel_timestamp : float -> result float.
Variable default_values : gmap string value.
Variable measurement_filter : series -> bool.

Abbreviation import_metadata' :=
  (import_metadata vws_open lsm_open timedelta_clock excel_timestamp).
Abbreviation one_wavelength :=
  (TillImporterOneWavelength_read_single_measurement_metadata vws_open timedelta_clock).
Abbreviation two_wavelengths :=
  (TillImporterTwoWavelength_read_single_measurement_metadata vws_open timedelta_clock).
Abbreviation image_series :=
  (LSMImporter_read_single_measurement_metadata lsm_open excel_timestamp).

Lemma get_default_row_new (cls : importer_class) :
  get_default_row (new cls default_values) = inr default_values.
Proof. unfold get_default_row. now rewrite getattr_default_values. Qed.

Lemma set_mtime_inv (first_utc : value) (row : series) (df : frame) :
  outcome (set_mtime timedelta_clock first_utc [row]) = inr df ->
  exists mtime : string, df = [<["MTime" := VStr mtime]> row].
Proof.
  intros H. unfold set_mtime in H.
  step H as utcs Hutcs. step H as utc Hutc. step H as mtime Hmtime.
  rewrite outcome_ret in H. injection H as <-. now exists mtime.
Qed.

Lemma one_wavelength_inv (fle : string) (fle_ind : Z) (df : frame) :
  let self := new TillImporterOneWavelength default_values in
  outcome (one_wavelength self fle fle_ind measurement_filter) = inr df ->
  exists (m : VWSDataManager) (rs : list frame),
    vws_open fle = inr m
    /\ df = concat rs
    /\ Forall2 (one_wavelength_row self default_values)
               (get_all_metadata m measurement_filter additional_cols_func) rs.
Proof.
  intros self H.
  unfold TillImporterOneWavelength_read_single_measurement_metadata in H.
  step H as m Hm. step H as u Hu.
  apply (for_each_append_inv (one_wavelength_row self default_values)) in H as (rs & -> & Hrs).
  { now exists m, rs. }
  clear. intros acc s t H.
  step H as default_row Hdefault.
  unfold self in Hdefault. rewrite get_default_row_new in Hdefault.
  injection Hdefault as <-.
  step H as lst_line Hconv.
  apply convert_vws_names_to_lst_names_inv in Hconv as (row & -> & Hrow).
  step H as lst_line' Hmtime. apply set_mtime_inv in Hmtime as (mtime & ->).
  rewrite outcome_ret in H. injection H as <-.
  eexists. split; [reflexivity |]. now exists row, mtime.
Qed.

Lemma two_wavelengths_inv (fle : string) (fle_ind : Z) (df : frame) :
  let self := new TillImporterTwoWavelength default_values in
  outcome (two_wavelengths self fle fle_ind measurement_filter) = inr df ->
  exists (m : VWSDataManager) (rs : list frame),
    vws_open fle = inr m
    /\ df = concat rs
    /\ Forall2 (two_wavelength_rows self default_values)
               (zip (get_metadata_two_wavelengths m measurement_filter additional_cols_func).1
                    (get_metadata_two_wavelengths m measurement_filter additional_cols_func).2)
               rs.
Proof.
  intros self H.
  unfold TillImporterTwoWavelength_read_single_measurement_metadata in H.
  step H as m Hm.
  destruct (get_metadata_two_wavelengths m measurement_filter additional_cols_func)
    as [df340 df380] eqn:Htwo.
  apply (for_each_append_inv (two_wavelength_rows self default_values)) in H as (rs & -> & Hrs).
  { exists m, rs. now rewrite Htwo. }
  clear. intros acc [s340 s380] t H.
  step H as default_row Hdefault.
  unfold self in Hdefault. rewrite get_default_row_new in Hdefault.
  injection Hdefault as <-.
  step H as lst_line_wl340 Hconv340.
  apply convert_vws_names_to_lst_names_inv in Hconv340 as (row340 & -> & Hrow340).
  step H as default_row Hdefault.
  unfold self in Hdefault. rewrite get_default_row_new in Hdefault.
  injection Hdefault as <-.
  step H as lst_line_wl380 Hconv380.
  apply convert_vws_names_to_lst_names_inv in Hconv380 as (row380 & -> & Hrow380).
  step H as dbb1_wl380 Hdbb1.
  unfold column in Hdbb1. simpl in Hdbb1.
  destruct (getitem row380 "DBB1") as [e | dbb1] eqn:Hget; [discriminate |].
  injection Hdbb1 as <-. apply getitem_Some in Hget.
  step H as lst_line_wl340' Hmtime340. simpl in Hmtime340.
  apply set_mtime_inv in Hmtime340 as (mtime340 & ->).
  step H as lst_line_wl380' Hmtime380. simpl in Hmtime380.
  apply set_mtime_inv in Hmtime380 as (mtime380 & ->).
  rewrite outcome_ret in H. injection H as <-.
  eexists. split; [now rewrite <- app_assoc |].
  now exists row340, row380, mtime340, mtime380, dbb1.
Qed.

Lemma image_series_inv (fle : string) (fle_ind : Z) (df : frame) :
  let self := new LSMImporter default_values in
  outcome (image_series self fle fle_ind measurement_filter) = inr df ->
  exists row : series, df = [row] /\ row !! "Measu" = Some (VInt (fle_ind + 1)).
Proof.
  intros self H. unfold LSMImporter_read_single_measurement_metadata in H.
  step H as metadata Hmetadata. step H as default_row Hdefault.
  unfold convert_lsm_metadata_to_lst_row in H.
  step H as wavelength Hwavelength. step H as utc Hutc.
  step H as resolved Hresolved. destruct resolved as [analyze dbb1_relative].
  rewrite outcome_ret in H. injection H as <-.
  eexists. split; [reflexivity |]. now rewrite lookup_insert_eq.
Qed.

End ImportProperties.

(** ** The two-wavelength importer *)

Ltac lookup_row :=
  repeat first [rewrite lookup_insert_eq | rewrite lookup_insert_ne by done].

Lemma two_wavelength_rows_pair (self : instance) (dv : gmap string value)
  (s : series * series) (df : frame) :
  two_wavelength_rows self dv s df ->
  exists r : series * series, df = [r.1; r.2] /\ companion_pair self s r.
Proof.
  destruct s as [s340 s380].
  intros (row340 & row380 & mtime340 & mtime380 & dbb1_wl380 & H340 & H380 & Hdbb1 & ->).
  unfold fst, snd in H340, H380.
  exists (<["MTime" := VStr mtime340]> (<["dbb2" := dbb1_wl380]> row340),
          <["MTime" := VStr mtime380]> (<["Analyze" := VInt 0]> row380)).
  split; [reflexivity |].
  destruct H340 as [label index measu location analyze dbb1 da dt wl utc
                      HLabel HIndex HMeasu HLocation Hresolved HDefault HDt HWl HUtc].
  destruct H380 as [label' index' measu' location' analyze' dbb1' da' dt' wl' utc'
                      HLabel' HIndex' HMeasu' HLocation' Hresolved' HDefault' HDt' HWl' HUtc'].
  revert Hdbb1. lookup_row. intros [= <-].
  unfold companion_pair, fst, snd. repeat split.
  - now lookup_row.
  - exists location', analyze', dbb1'. repeat split; try assumption; now lookup_row.
  - exists location, analyze, dbb1. repeat split; try assumption; now lookup_row.
  - rewrite HLabel. now lookup_row.
  - rewrite HLabel'. now lookup_row.
Qed.

Lemma two_wavelength_rows_interleave (self : instance) (dv : gmap string value)
  (l : list (series * series)) (rs : list frame) :
  Forall2 (two_wavelength_rows self dv) l rs ->
  exists pairs : list (series * series),
    concat rs = interleave pairs /\ Forall2 (companion_pair self) l pairs.
Proof.
  induction 1 as [| s df l rs Hs _ (pairs & Hpairs & IH)].
  - exists []. split; [reflexivity | constructor].
  - apply two_wavelength_rows_pair in Hs as (r & -> & Hr).
    exists (r :: pairs). split; [| now constructor].
    simpl. now rewrite Hpairs.
Qed.

(** C4: the table that the two-wavelength importer reads from a log is made
    of the pairs of records of the two wavelengths, paired by position, and
    for every pair it holds the row of channel 1 and then the row of channel
    2; the row of channel 2 has [Analyze = 0] whatever its path resolved to,
    and the row of channel 1 has the resolved path of channel 2 as [dbb2]
    next to its own as [DBB1]. *)
Theorem two_wavelength_companion_rows
  (vws_open : string -> result VWSDataManager)
  (timedelta_clock : value -> value -> result string)
  (default_values : gmap string value) (measurement_filter : series -> bool)
  (fle : string) (fle_ind : Z) (table : frame) :
  outcome (TillImporterTwoWavelength_read_single_measurement_metadata
             vws_open timedelta_clock (new TillImporterTwoWavelength default_values)
             fle fle_ind measurement_filter)
  = inr table ->
  exists (m : VWSDataManager) (pairs : list (series * series)),
    vws_open fle = inr m
    /\ table = interleave pairs
    /\ Forall2 (companion_pair (new TillImporterTwoWavelength default_values))
         (zip (get_metadata_two_wavelengths m measurement_filter additional_cols_func).1
              (get_metadata_two_wavelengths m measurement_filter additional_cols_func).2)
         pairs.
Proof.
  intros H. apply two_wavelengths_inv in H as (m & rs & Hm & -> & Hrs).
  apply two_wavelength_rows_interleave in Hrs as (pairs & Hpairs & Hrs).
  now exists m, pairs.
Qed.

(** A pair of records whose movie files both resolve: the row of channel 2
    is not analyzed all the same. *)
Lemma two_wavelength_companion_rows_witness :
  exists table : frame,
    cells ["Measu"; "Analyze"; "DBB1"; "dbb2"] table
    = [[Some (VInt 1); Some (VInt 1); Some (VStr "animal/a340"); Some (VStr "animal/a380")];
       [Some (VInt 2); Some (VInt 0); Some (VStr "animal/a380"); None]]
    /\ exists (m : VWSDataManager) (pairs : list (series * series)),
         (inr two_wavelength_log : result VWSDataManager) = inr m
         /\ table = interleave pairs
         /\ Forall2 (companion_pair (new TillImporterTwoWavelength ∅))
              (zip (get_metadata_two_wavelengths m accept_all additional_cols_func).1
                   (get_metadata_two_wavelengths m accept_all additional_cols_func).2)
              pairs.
Proof.
  exists (match outcome (TillImporterTwoWavelength_read_single_measurement_metadata
                            (fun _ => inr two_wavelength_log) clock_at_earliest
                            (new TillImporterTwoWavelength ∅) "animal.vws.log" 0 accept_all)
          with inr t => t | inl _ => [] end).
  split.
  - by_evaluation.
  - apply (two_wavelength_companion_rows
             (fun _ => inr two_wavelength_log) clock_at_earliest ∅
             accept_all "animal.vws.log" 0).
    by_evaluation.
Defined.

(** ** The table of an import *)

Lemma Forall2_flat_map_concat {A B R : Type} (Q : B -> R -> Prop) (g : A -> list B)
  (l : list A) (rs : list (list R)) :
  Forall2 (fun x r => Forall2 Q (g x) r) l rs ->
  Forall2 Q (flat_map g l) (concat rs).
Proof.
  induction 1 as [| x r l rs Hr _ IH]; simpl; [constructor |].
  now apply Forall2_app.
Qed.

Lemma Forall2_concat_singletons {A R : Type} (Q : A -> R -> Prop)
  (l : list A) (rs : list (list R)) :
  Forall2 (fun x r => Forall2 Q [x] r) l rs -> Forall2 Q l (concat rs).
Proof.
  induction 1 as [| x r l rs Hr _ IH]; simpl; [constructor |].
  change (x :: l) with ([x] ++ l). now apply Forall2_app.
Qed.

Lemma Forall2_zip_fmap {A B R : Type} (f : A -> B) (P : B * B -> R -> Prop)
  (l1 l2 : list A) (rs : list R) :
  Forall2 P (zip (f <$> l1) (f <$> l2)) rs ->
  Forall2 (fun p : A * A => P (f p.1, f p.2)) (zip l1 l2) rs.
Proof.
  revert l2 rs. induction l1 as [| a l1 IH]; intros [| b l2] rs H; simpl in *;
    inversion H; subst; constructor; eauto.
Qed.

Lemma Forall2_enumerate_from {A R : Type} (P : A -> R -> Prop) (i : Z)
  (l : list A) (rs : list R) :
  Forall2 (fun (p : Z * A) r => P p.2 r) (enumerate_from i l) rs -> Forall2 P l rs.
Proof.
  revert i rs. induction l as [| a l IH]; intros i rs H; simpl in H;
    inversion H; subst; constructor; eauto.
Qed.

Lemma with_additional_cols_lookup (s : series) (k : string) :
  k <> "dt" -> k <> "Analyze" ->
  with_additional_cols additional_cols_func s !! k = s !! k.
Proof.
  intros Hdt Hanalyze.
  destruct (with_additional_cols_inserts s) as (dt & analyze & -> & _).
  now rewrite !lookup_insert_ne by done.
Qed.

Lemma converted_numbered (self : instance) (dv : gmap string value) (s row : series) :
  converted self (with_additional_cols additional_cols_func s) dv row ->
  numbered_by_index s row.
Proof.
  intros [label index measu location analyze dbb1 da dt wl utc
            HLabel HIndex HMeasu HLocation Hresolved HDefault HDt HWl HUtc].
  rewrite with_additional_cols_lookup in HIndex by done.
  exists index, measu. repeat split; try assumption. now lookup_row.
Qed.

Lemma numbered_insert (s row : series) (k : string) (v : value) :
  k <> "Measu" -> numbered_by_index s row -> numbered_by_index s (<[k := v]> row).
Proof.
  intros Hk (index & measu & Hindex & Hmeasu & Hrow).
  exists index, measu. repeat split; try assumption. now rewrite lookup_insert_ne.
Qed.

Section TableProperties.

Variable vws_open : string -> result VWSDataManager.
Variable lsm_open : string -> result lsm_metadata.
Variable timedelta_clock : value -> value -> result string.
Variable excel_timestamp : float -> result float.
Variable default_values : gmap string value.
Variable measurement_filter : series -> bool.

Abbreviation import_table cls files :=
  (outcome (import_metadata vws_open lsm_open timedelta_clock excel_timestamp
              (new cls default_values) files measurement_filter)).

Lemma import_metadata_inv (cls : importer_class) (files : list string) (table : frame) :
  import_table cls files = inr table ->
  exists dfs : list frame,
    table = concat dfs
    /\ Forall2 (fun (p : Z * string) df =>
                  outcome (read_single_measurement_metadata
                             vws_open lsm_open timedelta_clock excel_timestamp
                             (new cls default_values) p.2 p.1 measurement_filter)
                  = inr df)
               (enumerate files) dfs.
Proof.
  intros H. unfold import_metadata in H.
  apply (for_each_append_inv
           (fun (p : Z * string) df =>
              outcome (read_single_measurement_metadata
                         vws_open lsm_open timedelta_clock excel_timestamp
                         (new cls default_values) p.2 p.1 measurement_filter)
              = inr df)) in H as (dfs & -> & Hdfs).
  { now exists dfs. }
  clear. intros acc [fle_ind fle] t H.
  step H as u Hu. step H as df Hdf.
  rewrite outcome_ret in H. injection H as <-. now exists df.
Qed.

Lemma one_wavelength_numbered (fle : string) (fle_ind : Z) (df : frame) :
  outcome (read_single_measurement_metadata
             vws_open lsm_open timedelta_clock excel_timestamp
             (new TillImporterOneWavelength default_values) fle fle_ind measurement_filter)
  = inr df ->
  Forall2 numbered_by_index (surviving_records vws_open measurement_filter fle) df.
Proof.
  intros H. apply (one_wavelength_inv _ _ _ _ fle fle_ind) in H as (m & rs & Hm & -> & Hrs).
  unfold surviving_records. rewrite Hm.
  apply Forall2_concat_singletons.
  unfold get_all_metadata in Hrs. rewrite Forall2_fmap_l in Hrs.
  eapply Forall2_impl; [exact Hrs |].
  intros s r (row & mtime & Hrow & ->). constructor; [| constructor].
  apply numbered_insert; [done |]. eapply converted_numbered; eassumption.
Qed.

Lemma two_wavelengths_numbered (fle : string) (fle_ind : Z) (df : frame) :
  outcome (read_single_measurement_metadata
             vws_open lsm_open timedelta_clock excel_timestamp
             (new TillImporterTwoWavelength default_values) fle fle_ind measurement_filter)
  = inr df ->
  Forall2 numbered_by_index
          (flat_map both_channels (paired_records vws_open measurement_filter fle)) df.
Proof.
  intros H. apply (two_wavelengths_inv _ _ _ _ fle fle_ind) in H as (m & rs & Hm & -> & Hrs).
  unfold paired_records. rewrite Hm.
  apply Forall2_flat_map_concat.
  unfold get_metadata_two_wavelengths in Hrs. cbn [fst snd] in Hrs.
  apply Forall2_zip_fmap in Hrs.
  eapply Forall2_impl; [exact Hrs |].
  intros [s340 s380] r (row340 & row380 & mtime340 & mtime380 & dbb & H340 & H380 & _ & ->).
  unfold fst, snd in H340, H380.
  repeat constructor;
    repeat (apply numbered_insert; [done |]);
    eapply converted_numbered; eassumption.
Qed.

Lemma image_series_numbered (fle : string) (fle_ind : Z) (df : frame) :
  outcome (read_single_measurement_metadata
             vws_open lsm_open timedelta_clock excel_timestamp
             (new LSMImporter default_values) fle fle_ind measurement_filter)
  = inr df ->
  exists row : series, df = [row] /\ row !! "Measu" = Some (VInt (fle_ind + 1)).
Proof. apply (image_series_inv _ _ _ _ fle fle_ind). Qed.

End TableProperties.

Lemma sum_list_with_double {A : Type} (n : A -> nat) (l : list A) :
  sum_list_with (fun x => 2 * n x)%nat l = (2 * sum_list_with n l)%nat.
Proof.
  induction l as [| x l IH]; cbn [sum_list_with]; [reflexivity | rewrite IH; lia].
Qed.

Lemma sum_list_with_one {A : Type} (l : list A) :
  sum_list_with (fun _ => 1%nat) l = length l.
Proof. induction l as [| x l IH]; simpl; [reflexivity | now rewrite IH]. Qed.

Lemma length_both_channels (pairs : list (series * series)) :
  length (flat_map both_channels pairs) = (2 * length pairs)%nat.
Proof.
  induction pairs as [| p pairs IH]; [reflexivity |].
  cbn [flat_map both_channels app length]. rewrite IH. lia.
Qed.

(** C6: the number of rows of an import. For the one-wavelength importer it
    is the sum over the files of the number of records that the filter
    accepts; for the two-wavelength importer it is twice the number of paired
    records; for the LSM importer it is the number of files; and an empty
    list of files gives an empty table, nothing logged and nothing raised. *)
Theorem import_metadata_row_count
  (vws_open : string -> result VWSDataManager)
  (lsm_open : string -> result lsm_metadata)
  (timedelta_clock : value -> value -> result string)
  (excel_timestamp : float -> result float)
  (default_values : gmap string value) (measurement_filter : series -> bool)
  (raw_data_files : list string) (table : frame) :
  (forall self : instance,
     import_metadata vws_open lsm_open timedelta_clock excel_timestamp
       self [] measurement_filter = ([], inr []))
  /\ (outcome (import_metadata vws_open lsm_open timedelta_clock excel_timestamp
                 (new TillImporterOneWavelength default_values)
                 raw_data_files measurement_filter) = inr table ->
      length table
      = sum_list_with
          (fun fle => length (surviving_records vws_open measurement_filter fle))
          raw_data_files)
  /\ (outcome (import_metadata vws_open lsm_open timedelta_clock excel_timestamp
                 (new TillImporterTwoWavelength default_values)
                 raw_data_files measurement_filter) = inr table ->
      length table
      = (2 * sum_list_with
               (fun fle => length (paired_records vws_open measurement_filter fle))
               raw_data_files)%nat)
  /\ (outcome (import_metadata vws_open lsm_open timedelta_clock excel_timestamp
                 (new LSMImporter default_values)
                 raw_data_files measurement_filter) = inr table ->
      length table = length raw_data_files).
Proof.
  split; [reflexivity |]. repeat split; intros H;
    apply import_metadata_inv in H as (dfs & -> & Hdfs).
  - apply length_concat_Forall2.
    apply (Forall2_enumerate_from
             (fun fle df =>
                length df = length (surviving_records vws_open measurement_filter fle)) 0).
    eapply Forall2_impl; [exact Hdfs |]. intros [fle_ind fle] df Hdf.
    apply one_wavelength_numbered in Hdf. apply Forall2_length in Hdf. now symmetry.
  - rewrite <- sum_list_with_double. apply length_concat_Forall2.
    apply (Forall2_enumerate_from
             (fun fle df =>
                length df
                = (2 * length (paired_records vws_open measurement_filter fle))%nat) 0).
    eapply Forall2_impl; [exact Hdfs |]. intros [fle_ind fle] df Hdf.
    apply two_wavelengths_numbered in Hdf. apply Forall2_length in Hdf.
    rewrite <- Hdf. apply length_both_channels.
  - rewrite <- (sum_list_with_one raw_data_files). apply length_concat_Forall2.
    apply (Forall2_enumerate_from (fun _ df => length df = 1%nat) 0).
    eapply Forall2_impl; [exact Hdfs |]. intros [fle_ind fle] df Hdf.
    apply image_series_numbered in Hdf as (row & -> & _). reflexivity.
Qed.

(** Two logs of one record each give a table of two rows. *)
Lemma import_metadata_row_count_witness :
  exists table : frame,
    outcome (import_metadata two_logs no_lsm clock_at_earliest excel_identity
               (new TillImporterOneWavelength ∅) ["a.vws.log"; "b.vws.log"] accept_all)
    = inr table
    /\ length table = 2%nat.
Proof.
  exists_outcome (@nil series). split.
  - by_evaluation.
  - etransitivity.
    + apply (proj1 (proj2 (import_metadata_row_count
                             two_logs no_lsm clock_at_earliest excel_identity ∅
                             accept_all ["a.vws.log"; "b.vws.log"] _))).
      by_evaluation.
    + reflexivity.
Defined.

Lemma measu_column_from (i : Z) (files : list string) (table : frame) :
  Forall2 (fun (p : Z * string) (row : series) => row !! "Measu" = Some (VInt (p.1 + 1)))
          (enumerate_from i files) table ->
  column "Measu" table = inr (VInt <$> seqZ (i + 1) (Z.of_nat (length files))).
Proof.
  revert i table. induction files as [| fle files IH]; intros i table H;
    simpl in H; inversion H as [| p row ps rows Hrow Hrows]; subst; [reflexivity |].
  unfold column in *. cbn [mapM]. unfold getitem at 1. cbn [fst] in Hrow. rewrite Hrow.
  rewrite (IH _ _ Hrows).
  change (length (fle :: files)) with (S (length files)).
  rewrite Nat2Z.inj_succ, (seqZ_cons (i + 1)) by lia.
  cbn [fmap list_fmap]. now rewrite Z.pred_succ.
Qed.

(** C2: the [Measu] values of an import. In the table of the LSM importer
    the row of the file at index i has [Measu = i + 1], so that the column
    reads 1, 2, ... up to the number of files; in the tables of the two Till
    importers every row has the index of its own record, plus one, as
    [Measu], the rows being those of the accepted records, or of the two
    channels of the paired records, file after file. *)
Theorem measu_of_import
  (vws_open : string -> result VWSDataManager)
  (lsm_open : string -> result lsm_metadata)
  (timedelta_clock : value -> value -> result string)
  (excel_timestamp : float -> result float)
  (default_values : gmap string value) (measurement_filter : series -> bool)
  (raw_data_files : list string) (table : frame) :
  (outcome (import_metadata vws_open lsm_open timedelta_clock excel_timestamp
              (new LSMImporter default_values)
              raw_data_files measurement_filter) = inr table ->
   Forall2 (fun (p : Z * string) (row : series) => row !! "Measu" = Some (VInt (p.1 + 1)))
           (enumerate raw_data_files) table
   /\ column "Measu" table
      = inr (VInt <$> seqZ 1 (Z.of_nat (length raw_data_files))))
  /\ (outcome (import_metadata vws_open lsm_open timedelta_clock excel_timestamp
                 (new TillImporterOneWavelength default_values)
                 raw_data_files measurement_filter) = inr table ->
      Forall2 numbered_by_index
              (flat_map (surviving_records vws_open measurement_filter) raw_data_files)
              table)
  /\ (outcome (import_metadata vws_open lsm_open timedelta_clock excel_timestamp
                 (new TillImporterTwoWavelength default_values)
                 raw_data_files measurement_filter) = inr table ->
      Forall2 numbered_by_index
              (flat_map (fun fle =>
                           flat_map both_channels
                                    (paired_records vws_open measurement_filter fle))
                        raw_data_files)
              table).
Proof.
  split; [| split]; intros H; apply import_metadata_inv in H as (dfs & -> & Hdfs);
    [split | |].
  - apply Forall2_concat_singletons.
    eapply Forall2_impl; [exact Hdfs |]. intros [fle_ind fle] df Hdf.
    apply image_series_numbered in Hdf as (row & -> & Hrow). now repeat constructor.
  - apply (measu_column_from 0). apply Forall2_concat_singletons.
    eapply Forall2_impl; [exact Hdfs |]. intros [fle_ind fle] df Hdf.
    apply image_series_numbered in Hdf as (row & -> & Hrow). now repeat constructor.
  - apply Forall2_flat_map_concat.
    apply (Forall2_enumerate_from
             (fun fle df =>
                Forall2 numbered_by_index
                        (surviving_records vws_open measurement_filter fle) df) 0).
    eapply Forall2_impl; [exact Hdfs |]. intros [fle_ind fle] df Hdf.
    now apply one_wavelength_numbered in Hdf.
  - apply Forall2_flat_map_concat.
    apply (Forall2_enumerate_from
             (fun fle df =>
                Forall2 numbered_by_index
                        (flat_map both_channels
                                  (paired_records vws_open measurement_filter fle)) df) 0).
    eapply Forall2_impl; [exact Hdfs |]. intros [fle_ind fle] df Hdf.
    now apply two_wavelengths_numbered in Hdf.
Qed.

(** The rows of the two logs are both numbered 1. *)
Lemma measu_repeats_across_files :
  exists table : frame,
    outcome (import_metadata two_logs no_lsm clock_at_earliest excel_identity
               (new TillImporterOneWavelength ∅) ["a.vws.log"; "b.vws.log"] accept_all)
    = inr table
    /\ column "Measu" table = inr [VInt 1; VInt 1].
Proof. exists_outcome (@nil series). split; by_evaluation. Qed.

(** Two LSM files are numbered 1 and 2. *)
Lemma measu_of_import_witness :
  exists table : frame,
    outcome (import_metadata no_vws lsm_reader clock_at_earliest excel_identity
               (new LSMImporter ∅)
               ["C:\data\animal\run\a.lsm"; "C:\data\animal\run\b.lsm"] accept_all)
    = inr table
    /\ column "Measu" table = inr [VInt 1; VInt 2].
Proof.
  exists_outcome (@nil series). split.
  - by_evaluation.
  - apply (proj1 (measu_of_import no_vws lsm_reader clock_at_earliest excel_identity ∅
                    accept_all
                    ["C:\data\animal\run\a.lsm"; "C:\data\animal\run\b.lsm"] _)).
    by_evaluation.
Defined.

(** ** The files of the subjects *)

Lemma till_mapping_fold (files : list string) (m0 : gmap string (list string))
  (tag : string) :
  fold_left (fun (dict2return : gmap string (list string)) fle =>
               <[animal_tag_of fle := [fle]]> dict2return) files m0 !! tag
  = match last (files_of_tag tag files) with
    | Some fle => Some [fle]
    | None => m0 !! tag
    end.
Proof.
  revert m0. induction files as [| fle files IH]; intros m0; [reflexivity |].
  cbn [fold_left]. rewrite IH. unfold files_of_tag. rewrite filter_cons.
  destruct (decide (animal_tag_of fle = tag)) as [<- | Hne].
  - rewrite last_cons.
    destruct (last (filter _ files)); [reflexivity | now rewrite lookup_insert_eq].
  - destruct (last (filter _ files)); [reflexivity | now rewrite lookup_insert_ne].
Qed.

(** C10: the mapping of the Till importers holds, for every animal tag, the
    list of exactly one file, the last chosen file whose name has the tag
    before its first period; so every value is a list of one chosen file of
    that tag, and a file that is followed by another file of the same tag is
    in no value of the mapping. Nothing is raised. *)
Theorem till_animal_tag_mapping (files_chosen : list string) :
  exists mapping : gmap string (list string),
    TillImporter_get_animal_tag_raw_data_mapping files_chosen = inr mapping
    /\ (forall tag : string,
          mapping !! tag
          = (fun fle => [fle]) <$> last (files_of_tag tag files_chosen))
    /\ (forall (tag : string) (files : list string),
          mapping !! tag = Some files ->
          exists fle : string,
            files = [fle] /\ fle ∈ files_chosen /\ animal_tag_of fle = tag)
    /\ (forall (before between after : list string) (earlier later : string),
          files_chosen = before ++ earlier :: between ++ later :: after ->
          animal_tag_of earlier = animal_tag_of later ->
          earlier ∉ between ++ later :: after ->
          forall (tag : string) (files : list string),
            mapping !! tag = Some files -> earlier ∉ files).
Proof.
  assert (Hlookup : exists mapping : gmap string (list string),
             TillImporter_get_animal_tag_raw_data_mapping files_chosen = inr mapping
             /\ forall tag : string,
                  mapping !! tag
                  = (fun fle => [fle]) <$> last (files_of_tag tag files_chosen)).
  { unfold TillImporter_get_animal_tag_raw_data_mapping.
    destruct files_chosen as [| fle files]; simpl (_ =? _)%nat; cbv iota.
    - exists ∅. split; [reflexivity |]. intros tag. now rewrite lookup_empty.
    - eexists. split; [reflexivity |]. intros tag. rewrite till_mapping_fold.
      destruct (last (files_of_tag tag (fle :: files))) eqn:E; [reflexivity |].
      now rewrite lookup_empty. }
  destruct Hlookup as (mapping & Hmapping & Hlookup).
  assert (Hvalue : forall (tag : string) (files : list string),
             mapping !! tag = Some files ->
             exists fle : string,
               files = [fle] /\ last (files_of_tag tag files_chosen) = Some fle).
  { intros tag files H. rewrite Hlookup in H.
    destruct (last (files_of_tag tag files_chosen)) as [fle |]; [| discriminate].
    injection H as <-. now exists fle. }
  exists mapping. split; [assumption |]. split; [assumption |]. split.
  - intros tag files H. apply Hvalue in H as (fle & -> & Hlast).
    apply last_Some_elem_of, list_elem_of_filter in Hlast as [Htag Hin].
    now exists fle.
  - intros before between after earlier later -> Htag Hnotin tag files H Hin.
    apply Hvalue in H as (fle & -> & Hlast).
    apply list_elem_of_singleton in Hin as ->.
    assert (Hfle : animal_tag_of fle = tag).
    { now apply last_Some_elem_of, list_elem_of_filter in Hlast as [? _]. }
    unfold files_of_tag in Hlast.
    replace (before ++ fle :: between ++ later :: after)
      with ((before ++ fle :: between) ++ later :: after) in Hlast
      by now rewrite <- app_assoc.
    rewrite filter_app in Hlast.
    rewrite filter_cons_True in Hlast by congruence.
    rewrite last_app_cons in Hlast.
    apply last_Some_elem_of in Hlast.
    apply Hnotin, elem_of_app. right.
    apply elem_of_cons in Hlast as [-> | Hin]; [left |].
    apply list_elem_of_filter in Hin as [_ Hin]. now right.
Qed.

(** Two files named [bee1] up to the first period: the later one is the
    value of the tag, and the earlier one is in no value. *)
Lemma till_animal_tag_mapping_witness :
  exists mapping : gmap string (list string),
    TillImporter_get_animal_tag_raw_data_mapping
      ["/data/bee1.vws.log"; "/data/bee2.vws.log"; "/backup/bee1.old.vws.log"]
    = inr mapping
    /\ mapping !! "bee1" = Some ["/backup/bee1.old.vws.log"]
    /\ forall (tag : string) (files : list string),
         mapping !! tag = Some files -> "/data/bee1.vws.log" ∉ files.
Proof.
  destruct (till_animal_tag_mapping
              ["/data/bee1.vws.log"; "/data/bee2.vws.log"; "/backup/bee1.old.vws.log"])
    as (mapping & Hmapping & Hlookup & _ & Hdropped).
  exists mapping. split; [assumption |]. split.
  - rewrite Hlookup. reflexivity.
  - apply (Hdropped [] ["/data/bee2.vws.log"] [] "/data/bee1.vws.log"
             "/backup/bee1.old.vws.log"); [reflexivity | reflexivity |].
    intros Hin. repeat (apply elem_of_cons in Hin as [Heq | Hin]; [discriminate Heq |]).
    now apply elem_of_nil in Hin.
Defined.

(** ** Choosing the files *)

Lemma append_assoc (s t u : string) : (s +:+ t) +:+ u = s +:+ t +:+ u.
Proof.
  induction s as [| c s IH]; [reflexivity |].
  change (String c ((s +:+ t) +:+ u) = String c (s +:+ t +:+ u)). now f_equal.
Qed.

Lemma ask_for_files_dialog
  (fileopenbox : attr -> list string -> bool -> string -> option (list string))
  (cls : importer_class) (dv : gmap string value) (default_dir : string)
  (multiple : bool) :
  outcome (ask_for_files fileopenbox (new cls dv) default_dir multiple)
  = match dialog_answer fileopenbox cls default_dir multiple with
    | None => inl (IOError "User Abort while choosing files.")
    | Some [] => inl IndexError
    | Some (first :: rest) =>
        if PyStr.startswith first default_dir
        then get_animal_tag_raw_data_mapping (new cls dv) (first :: rest)
        else inl (AssertionError (not_in_data_dir default_dir))
    end.
Proof.
  unfold ask_for_files, dialog_answer.
  rewrite (bind_ok _ _ (AInt (LE_loadExp_of cls)))
    by (rewrite outcome_lift; apply getattr_LE_loadExp).
  rewrite (bind_ok _ _ (filetypes_of cls))
    by (rewrite outcome_lift; apply get_filetype_info_string_new).
  destruct (fileopenbox _ _ _ _) as [[| first rest] |]; try reflexivity.
  rewrite (bind_ok _ _ first) by reflexivity.
  destruct (PyStr.startswith first default_dir); [| reflexivity].
  destruct (get_animal_tag_raw_data_mapping (new cls dv) (first :: rest)) as [e | mapping] eqn:E.
  - now apply bind_err.
  - rewrite (bind_ok _ _ mapping) by (now rewrite outcome_lift).
    now rewrite (bind_ok _ _ tt).
Qed.

(** C7: when no file was chosen, [ask_for_files] raises the [IOError] of a
    user abort; when the path of the first chosen file does not start with
    the data directory, it raises an [AssertionError] whose message holds the
    data directory. *)
Theorem ask_for_files_errors
  (fileopenbox : attr -> list string -> bool -> string -> option (list string))
  (cls : importer_class) (dv : gmap string value) (default_dir : string)
  (multiple : bool) :
  (dialog_answer fileopenbox cls default_dir multiple = None ->
   outcome (ask_for_files fileopenbox (new cls dv) default_dir multiple)
   = inl (IOError "User Abort while choosing files."))
  /\ (forall (first : string) (rest : list string),
        dialog_answer fileopenbox cls default_dir multiple = Some (first :: rest) ->
        PyStr.startswith first default_dir = false ->
        outcome (ask_for_files fileopenbox (new cls dv) default_dir multiple)
        = inl (AssertionError (not_in_data_dir default_dir))
        /\ exists before after : string,
             not_in_data_dir default_dir = before +:+ default_dir +:+ after).
Proof.
  split.
  - intros H. now rewrite ask_for_files_dialog, H.
  - intros first rest H Hstart. rewrite ask_for_files_dialog, H, Hstart.
    split; [reflexivity |]. unfold not_in_data_dir.
    exists ("The data selected in not in the expected data directory of the current tree:"
            +:+ newline), ". Please copy your data there and try again!".
    now rewrite append_assoc.
Qed.

(** The first chosen file lies outside of the data directory. *)
Lemma ask_for_files_errors_witness :
  outcome (ask_for_files (fun _ _ _ _ => None)
             (new TillImporterOneWavelength ∅) "/data" true)
  = inl (IOError "User Abort while choosing files.")
  /\ outcome (ask_for_files first_file_elsewhere
                (new TillImporterOneWavelength ∅) "/data" true)
     = inl (AssertionError (not_in_data_dir "/data")).
Proof.
  split.
  - now apply (proj1 (ask_for_files_errors (fun _ _ _ _ => None)
                        TillImporterOneWavelength ∅ "/data" true)).
  - now apply (proj2 (ask_for_files_errors first_file_elsewhere
                        TillImporterOneWavelength ∅ "/data" true)
                 "/elsewhere/bee2.vws.log" ["/data/bee1.vws.log"]).
Defined.

(** The second chosen file lies outside of the data directory, and the
    files are grouped all the same. *)
Lemma ask_for_files_checks_first_file :
  PyStr.startswith "/elsewhere/bee2.vws.log" "/data" = false
  /\ exists mapping : gmap string (list string),
       outcome (ask_for_files one_file_elsewhere
                  (new TillImporterOneWavelength ∅) "/data" true)
       = inr mapping
       /\ mapping !! "bee2" = Some ["/elsewhere/bee2.vws.log"].
Proof.
  split; [reflexivity |].
  exists_outcome (∅ : gmap string (list string)). split; by_evaluation.
Qed.

(** ** Further properties of the timing columns *)

(** A record without the key [Timing_ms], or whose timing is no string, is
    treated as a record whose timing cannot be computed. *)
Lemma additional_cols_func_no_timing (s : series) :
  s !! "Timing_ms" = None
  \/ (exists z : Z, s !! "Timing_ms" = Some (VInt z))
  \/ (exists f : float, s !! "Timing_ms" = Some (VFloat f)) ->
  additional_cols_func s = <["dt" := VInt (-1)]> (<["Analyze" := VInt 0]> ∅).
Proof.
  unfold additional_cols_func, getitem.
  intros [-> | [[z ->] | [f ->]]]; reflexivity.
Qed.

Lemma additional_cols_func_no_timing_witness :
  additional_cols_func (<["Label" := VStr "odor"]> ∅)
  = <["dt" := VInt (-1)]> (<["Analyze" := VInt 0]> ∅).
Proof.
  apply additional_cols_func_no_timing. left. reflexivity.
Defined.


Lemma calculate_dt_single_witness :
  calculate_dt_from_timing_ms " 5 " = inl ZeroDivisionError.
Proof. now apply (calculate_dt_single " 5 " (PyFloat.of_Z 5)). Defined.

Lemma calculate_dt_not_numeric_witness :
  calculate_dt_from_timing_ms "0 100 abc" = inl ValueError.
Proof. now apply calculate_dt_not_numeric. Defined.


(** The location handed to the path resolution never ends in [.ps]: the
    second movie data extension of the Till importers matches no record. *)
Theorem amended_location_not_ps (location : string) :
  PyStr.endswith (amended_location location) ".ps" = false.
Proof.
  unfold amended_location.
  destruct (bool_decide (PyStr.last_two location = "ps")) eqn:E.
  - unfold PyStr.endswith. rewrite chars_append, rev_app_distr.
    change (rev (PyStr.chars "t")) with ["t"%char].
    change (rev (PyStr.chars ".ps")) with ["s"; "p"; "."]%char.
    reflexivity.
  - destruct (PyStr.endswith location ".ps") eqn:Hends; [| reflexivity].
    apply endswith_ps_last_two in Hends. apply bool_decide_eq_false in E.
    contradiction.
Qed.

(** ** Further properties of the importer classes *)

(** The class selected for a code builds instances with that code as
    [LE_loadExp]. *)
Theorem get_importer_class_LE_loadExp (code : Z) (cls : importer_class)
  (default_values : gmap string value) :
  get_importer_class code = inr cls ->
  getattr (new cls default_values) "LE_loadExp" = inr (AInt code).
Proof.
  unfold get_importer_class. rewrite getattr_LE_loadExp.
  destruct (Z.eqb_spec code 3) as [-> |]; [now intros [= <-] |].
  destruct (Z.eqb_spec code 4) as [-> |]; [now intros [= <-] |].
  destruct (Z.eqb_spec code 20) as [-> |]; [now intros [= <-] | discriminate].
Qed.

Lemma get_importer_class_LE_loadExp_witness :
  getattr (new LSMImporter ∅) "LE_loadExp" = inr (AInt 20).
Proof. now apply (get_importer_class_LE_loadExp 20 LSMImporter ∅). Defined.

(** [get_setup_extension] returns for no code at all: it raises
    [NotImplementedError] for a code without importer and [AttributeError]
    for the others. *)
Theorem get_setup_extension_never_returns (code : Z) :
  get_setup_extension code
  = if bool_decide (code = 3 \/ code = 4 \/ code = 20)
    then inl AttributeError else inl NotImplementedError.
Proof.
  unfold get_setup_extension, get_importer_class.
  destruct (Z.eqb_spec code 3) as [-> |]; [reflexivity |].
  destruct (Z.eqb_spec code 4) as [-> |]; [reflexivity |].
  destruct (Z.eqb_spec code 20) as [-> |]; [reflexivity |].
  rewrite bool_decide_eq_false_2; [reflexivity | lia].
Qed.

(** ** Further properties of the conversion of a record *)

Lemma bind_lift_ok {A B : Type} (r : result A) (k : A -> M B) (a : A) :
  r = inr a -> bind (lift r) k = k a.
Proof. intros ->. unfold bind, lift. now destruct (k a). Qed.


Lemma getitem_ok (s : series) (k : string) (v : value) :
  s !! k = Some v -> getitem s k = inr v.
Proof. apply getitem_Some. Qed.


(** The columns of a converted row: the measurement number is the index of
    the record plus one, the label, the cycle, the wavelength and the
    timestamp are those of the record, and every column that the conversion
    does not write keeps the value of the default row. *)
Theorem convert_vws_names_to_lst_names_columns (self : instance)
  (s default_row : series) (df : frame) :
  outcome (convert_vws_names_to_lst_names self s default_row) = inr df ->
  exists row : series,
    df = [row]
    /\ (exists index measu : value,
          s !! "index" = Some index /\ PyInt.succ index = inr measu
          /\ row !! "Measu" = Some measu)
    /\ row !! "Label" = s !! "Label"
    /\ row !! "Cycle" = s !! "dt"
    /\ row !! "Lambda" = s !! "MonochromatorWL_nm"
    /\ row !! "UTC" = s !! "UTCTime"
    /\ forall column : string,
         column ∉ ["Measu"; "Label"; "DBB1"; "Analyze"; "Cycle"; "Lambda"; "UTC"] ->
         row !! column = default_row !! column.
Proof.
  intros H. apply convert_vws_names_to_lst_names_inv in H as (row & -> & Hrow).
  exists row. split; [reflexivity |].
  destruct Hrow as [label index measu location analyze dbb1 da dt wl utc
                      HLabel HIndex HMeasu HLocation Hresolved HDefault HDt HWl HUtc].
  rewrite HLabel, HDt, HWl, HUtc. repeat split; try (now lookup_row).
  - exists index, measu. repeat split; try assumption. now lookup_row.
  - intros column Hcolumn.
    rewrite !lookup_insert_ne; [reflexivity | ..];
      intros <-; apply Hcolumn; repeat constructor.
Qed.

Lemma convert_vws_names_to_lst_names_columns_witness :
  exists row : series,
    row !! "Measu" = Some (VInt 8)
    /\ row !! "Label" = Some (VStr "odor")
    /\ row !! "Comment" = Some (VStr "none").
Proof.
  destruct (convert_vws_names_to_lst_names_columns
              (new TillImporterOneWavelength ∅)
              (with_additional_cols additional_cols_func
                 (vws_record 7 "odor" "C:\data\animal\movie.pst" "0 100"))
              (<["Comment" := VStr "none"]> ∅)
              (match outcome (convert_vws_names_to_lst_names
                                (new TillImporterOneWavelength ∅)
                                (with_additional_cols additional_cols_func
                                   (vws_record 7 "odor" "C:\data\animal\movie.pst" "0 100"))
                                (<["Comment" := VStr "none"]> ∅))
               with inr df => df | inl _ => [] end))
    as (row & _ & (index & measu & Hindex & Hmeasu & HMeasu) & HLabel & _ & _ & _ & Hkeep);
    [by_evaluation |].
  exists row. split; [| split].
  - rewrite HMeasu. revert Hindex Hmeasu.
    rewrite with_additional_cols_lookup by done.
    unfold vws_record. lookup_row. now intros [= <-] [= <-].
  - rewrite HLabel, with_additional_cols_lookup by done.
    unfold vws_record. now lookup_row.
  - rewrite Hkeep; [now lookup_row |].
    intros Hin. repeat (apply elem_of_cons in Hin as [Heq | Hin]; [discriminate Heq |]).
    now apply elem_of_nil in Hin.
Defined.



(** ** Further properties of reading a file *)

Lemma for_each_app {A S : Type} (l1 l2 : list A) (body : S -> A -> M S) (s s' : S) :
  outcome (for_each l1 body s) = inr s' ->
  outcome (for_each (l1 ++ l2) body s) = outcome (for_each l2 body s').
Proof.
  revert s. induction l1 as [| a l1 IH]; intros s H; cbn [for_each app] in *.
  - rewrite outcome_ret in H. now injection H as <-.
  - apply bind_inr in H as (s1 & Ha & H).
    rewrite (bind_ok _ _ s1) by assumption. now apply IH.
Qed.

Lemma enumerate_from_app {A : Type} (i : Z) (l1 l2 : list A) :
  enumerate_from i (l1 ++ l2)
  = enumerate_from i l1 ++ enumerate_from (i + Z.of_nat (length l1)) l2.
Proof.
  revert i. induction l1 as [| a l1 IH]; intros i; cbn [enumerate_from app length].
  - now rewrite Z.add_0_r.
  - rewrite IH. do 3 f_equal. lia.
Qed.

(** A log in which the filter accepts no record gives the one-wavelength
    importer an empty table, with a warning; a log that cannot be read
    raises the error of the reader. *)
Theorem one_wavelength_no_usable_measurements
  (vws_open : string -> result VWSDataManager)
  (timedelta_clock : value -> value -> result string)
  (self : instance) (fle : string) (fle_ind : Z) (measurement_filter : series -> bool) :
  (forall m : VWSDataManager,
     vws_open fle = inr m ->
     List.filter measurement_filter (measurements m) = [] ->
     TillImporterOneWavelength_read_single_measurement_metadata
       vws_open timedelta_clock self fle fle_ind measurement_filter
     = ([(WARNING, NoUsableMeasurements fle)], inr []))
  /\ (forall e : exn,
        vws_open fle = inl e ->
        TillImporterOneWavelength_read_single_measurement_metadata
          vws_open timedelta_clock self fle fle_ind measurement_filter
        = ([], inl e)).
Proof.
  split.
  - intros m Hm Hnone.
    unfold TillImporterOneWavelength_read_single_measurement_metadata.
    rewrite (bind_lift_ok _ _ m) by assumption.
    unfold get_all_metadata. rewrite Hnone. reflexivity.
  - intros e He.
    unfold TillImporterOneWavelength_read_single_measurement_metadata.
    rewrite He. reflexivity.
Qed.

Lemma one_wavelength_no_usable_measurements_witness :
  TillImporterOneWavelength_read_single_measurement_metadata
    two_logs clock_at_earliest (new TillImporterOneWavelength ∅) "a.vws.log" 0
    (fun _ => false)
  = ([(WARNING, NoUsableMeasurements "a.vws.log")], inr [])
  /\ TillImporterOneWavelength_read_single_measurement_metadata
       no_vws clock_at_earliest (new TillImporterOneWavelength ∅) "a.vws.log" 0
       accept_all
     = ([], inl (IOError "a.vws.log")).
Proof.
  split.
  - now eapply (proj1 (one_wavelength_no_usable_measurements
                         two_logs clock_at_earliest _ "a.vws.log" 0 (fun _ => false))).
  - now apply (proj2 (one_wavelength_no_usable_measurements
                        no_vws clock_at_earliest _ "a.vws.log" 0 accept_all)).
Defined.

(** The two-wavelength importer pairs the accepted records of the two
    wavelengths by position and drops, without a warning, the records of the
    longer sequence that are left without a partner: its table has two rows
    for each of the pairs, whose number is the smaller of the two numbers of
    records. *)
Theorem two_wavelengths_unpaired_records_dropped
  (vws_open : string -> result VWSDataManager)
  (timedelta_clock : value -> value -> result string)
  (default_values : gmap string value) (measurement_filter : series -> bool)
  (fle : string) (fle_ind : Z) (table : frame) :
  outcome (TillImporterTwoWavelength_read_single_measurement_metadata
             vws_open timedelta_clock (new TillImporterTwoWavelength default_values)
             fle fle_ind measurement_filter)
  = inr table ->
  exists m : VWSDataManager,
    vws_open fle = inr m
    /\ length table
       = (2 * (length (List.filter measurement_filter (measurements_wl340 m))
               `min` length (List.filter measurement_filter (measurements_wl380 m))))%nat.
Proof.
  intros H.
  apply (two_wavelengths_inv _ _ _ _ fle fle_ind) in H as (m & rs & Hm & -> & Hrs).
  exists m. split; [assumption |].
  unfold get_metadata_two_wavelengths in Hrs. cbn [fst snd] in Hrs.
  apply Forall2_zip_fmap in Hrs.
  rewrite (length_concat_Forall2
             (fun _ : series * series => (2 * 1)%nat)
             (zip (List.filter measurement_filter (measurements_wl340 m))
                  (List.filter measurement_filter (measurements_wl380 m))) rs).
  - now rewrite sum_list_with_double, sum_list_with_one, length_zip_with.
  - eapply Forall2_impl; [exact Hrs |].
    now intros p r (row340 & row380 & mtime340 & mtime380 & dbb & _ & _ & _ & ->).
Qed.

Lemma two_wavelengths_unpaired_records_dropped_witness :
  exists table : frame,
    outcome (TillImporterTwoWavelength_read_single_measurement_metadata
               (fun _ => inr unpaired_log) clock_at_earliest
               (new TillImporterTwoWavelength ∅) "animal.vws.log" 0 accept_all)
    = inr table
    /\ length table = 2%nat.
Proof.
  exists_outcome (@nil series). split; [by_evaluation |].
  destruct (two_wavelengths_unpaired_records_dropped
              (fun _ => inr unpaired_log) clock_at_earliest ∅ accept_all
              "animal.vws.log" 0
              (match outcome (TillImporterTwoWavelength_read_single_measurement_metadata
                                (fun _ => inr unpaired_log) clock_at_earliest
                                (new TillImporterTwoWavelength ∅) "animal.vws.log" 0
                                accept_all)
               with inr t => t | inl _ => [] end))
    as (m & Hm & ->); [by_evaluation |].
  now injection Hm as <-.
Defined.

(** ** Further properties of an import *)

(** An import stops at the first file that cannot be read: when the files
    before it are imported and reading it raises an error, the import raises
    that error, whatever files follow. *)
Theorem import_metadata_propagates
  (vws_open : string -> result VWSDataManager)
  (lsm_open : string -> result lsm_metadata)
  (timedelta_clock : value -> value -> result string)
  (excel_timestamp : float -> result float)
  (self : instance) (measurement_filter : series -> bool)
  (before after : list string) (fle : string) (table : frame) (e : exn) :
  outcome (import_metadata vws_open lsm_open timedelta_clock excel_timestamp
             self before measurement_filter) = inr table ->
  outcome (read_single_measurement_metadata
             vws_open lsm_open timedelta_clock excel_timestamp
             self fle (Z.of_nat (length before)) measurement_filter) = inl e ->
  outcome (import_metadata vws_open lsm_open timedelta_clock excel_timestamp
             self (before ++ fle :: after) measurement_filter) = inl e.
Proof.
  intros Hbefore Hfle. unfold import_metadata, enumerate in *.
  rewrite enumerate_from_app, (for_each_app _ _ _ _ _ Hbefore).
  cbn [enumerate_from for_each]. rewrite Z.add_0_l.
  apply bind_err. rewrite (bind_ok _ _ tt) by reflexivity.
  now apply bind_err.
Qed.

Lemma import_metadata_propagates_witness :
  outcome (import_metadata one_broken_log no_lsm clock_at_earliest excel_identity
             (new TillImporterOneWavelength ∅)
             (["a.vws.log"] ++ "broken.vws.log" :: ["b.vws.log"]) accept_all)
  = inl (IOError "broken.vws.log").
Proof.
  apply (import_metadata_propagates one_broken_log no_lsm clock_at_earliest
           excel_identity _ accept_all ["a.vws.log"] ["b.vws.log"] "broken.vws.log"
           (match outcome (import_metadata one_broken_log no_lsm clock_at_earliest
                             excel_identity (new TillImporterOneWavelength ∅)
                             ["a.vws.log"] accept_all)
            with inr t => t | inl _ => [] end));
    by_evaluation.
Defined.

(** ** Further properties of choosing the files *)

Lemma startswith_append (prefix suffix : string) :
  PyStr.startswith (prefix +:+ suffix) prefix = true.
Proof.
  unfold PyStr.startswith. rewrite chars_append.
  induction (PyStr.chars prefix) as [| c l IH]; [reflexivity |].
  cbn [PyStr.starts_chars app]. now rewrite Ascii.eqb_refl, IH.
Qed.

(** The test of the data directory is a test on strings: whenever the path
    of the first chosen file starts with the characters of the data
    directory, the files are grouped, the grouping is logged and returned,
    and no file but the first is looked at. *)
Theorem ask_for_files_prefix
  (fileopenbox : attr -> list string -> bool -> string -> option (list string))
  (cls : importer_class) (dv : gmap string value) (default_dir suffix : string)
  (rest : list string) (multiple : bool) (mapping : gmap string (list string)) :
  dialog_answer fileopenbox cls default_dir multiple
  = Some ((default_dir +:+ suffix) :: rest) ->
  get_animal_tag_raw_data_mapping (new cls dv) ((default_dir +:+ suffix) :: rest)
  = inr mapping ->
  ask_for_files fileopenbox (new cls dv) default_dir multiple
  = ([(INFO, WorkingOnAnimalTags mapping)], inr mapping).
Proof.
  intros Hanswer Hmapping. unfold ask_for_files.
  rewrite (bind_lift_ok _ _ (AInt (LE_loadExp_of cls))) by apply getattr_LE_loadExp.
  rewrite (bind_lift_ok _ _ (filetypes_of cls)) by apply get_filetype_info_string_new.
  unfold dialog_answer in Hanswer. rewrite Hanswer.
  rewrite (bind_lift_ok _ _ (default_dir +:+ suffix)) by reflexivity.
  rewrite startswith_append.
  rewrite (bind_lift_ok _ _ mapping) by assumption.
  reflexivity.
Qed.

Lemma ask_for_files_prefix_witness :
  ask_for_files file_beside_data_dir (new TillImporterOneWavelength ∅) "/data" true
  = ([(INFO, WorkingOnAnimalTags (<["bee1" := ["/data2/bee1.vws.log"]]> ∅))],
     inr (<["bee1" := ["/data2/bee1.vws.log"]]> ∅)).
Proof.
  apply (ask_for_files_prefix file_beside_data_dir TillImporterOneWavelength ∅
           "/data" "2/bee1.vws.log" [] true);
    reflexivity.
Defined.

(** ** Further properties of the files of the subjects *)

Lemma till_mapping_dom (files : list string) (m0 : gmap string (list string)) :
  dom (fold_left (fun (dict2return : gmap string (list string)) fle =>
                    <[animal_tag_of fle := [fle]]> dict2return) files m0)
  = dom m0 ∪ list_to_set (animal_tag_of <$> files).
Proof.
  revert m0. induction files as [| fle files IH]; intros m0; cbn [fold_left].
  - set_solver.
  - rewrite IH, dom_insert_L. set_solver.
Qed.

(** The mapping of the Till importers has exactly the animal tags of the
    chosen files as its keys; it is empty for no file, and nothing is
    raised. *)
Theorem till_animal_tags_are_keys (files_chosen : list string) :
  exists mapping : gmap string (list string),
    TillImporter_get_animal_tag_raw_data_mapping files_chosen = inr mapping
    /\ dom mapping = list_to_set (animal_tag_of <$> files_chosen)
    /\ (files_chosen = [] -> mapping = ∅).
Proof.
  unfold TillImporter_get_animal_tag_raw_data_mapping.
  destruct files_chosen as [| fle files]; simpl (_ =? _)%nat; cbv iota.
  - exists ∅. split; [reflexivity |]. split; [set_solver | reflexivity].
  - eexists. split; [reflexivity |]. split; [| discriminate].
    rewrite till_mapping_dom. set_solver.
Qed.

Lemma posix_eqb_eq (p q : PosixPath.t) : PosixPath.eqb p q = true <-> p = q.
Proof.
  unfold PosixPath.eqb. destruct p as [rp cp], q as [rq cq]. simpl.
  rewrite andb_true_iff, !bool_decide_eq_true. split; [intros [-> ->] | intros [= -> ->]]; auto.
Qed.

(** The mapping of the LSM importer: empty for no file; for files of one
    directory, the name of the parent of that directory with all the chosen
    files; an [AssertionError] as soon as one file lies in another directory
    than the first. *)
Theorem lsm_animal_tag_mapping (fle : string) (files : list string) :
  LSMImporter_get_animal_tag_raw_data_mapping [] = inr ∅
  /\ (Forall (fun f => PosixPath.parent (PosixPath.parse f)
                       = PosixPath.parent (PosixPath.parse fle)) files ->
      LSMImporter_get_animal_tag_raw_data_mapping (fle :: files)
      = inr (<[PosixPath.name (PosixPath.parent (PosixPath.parent (PosixPath.parse fle)))
               := fle :: files]> ∅))
  /\ (Exists (fun f => PosixPath.parent (PosixPath.parse f)
                       <> PosixPath.parent (PosixPath.parse fle)) files ->
      exists msg : string,
        LSMImporter_get_animal_tag_raw_data_mapping (fle :: files)
        = inl (AssertionError msg)).
Proof.
  split; [reflexivity |].
  unfold LSMImporter_get_animal_tag_raw_data_mapping.
  simpl (_ =? _)%nat. cbv iota. cbn [fmap list_fmap forallb].
  assert (Hself : PosixPath.eqb (PosixPath.parent (PosixPath.parse fle))
                    (PosixPath.parent (PosixPath.parse fle)) = true)
    by now apply posix_eqb_eq.
  rewrite Hself. clear Hself. cbn [andb]. split.
  - intros Hall.
    assert (Hforallb : forallb (fun x => PosixPath.eqb x
                                           (PosixPath.parent (PosixPath.parse fle)))
                         ((fun f => PosixPath.parent (PosixPath.parse f)) <$> files)
                       = true).
    { induction Hall as [| f files Hf _ IH]; [reflexivity |].
      cbn [fmap list_fmap forallb]. rewrite IH, andb_true_r. now apply posix_eqb_eq. }
    now rewrite Hforallb.
  - intros Hsome.
    assert (Hforallb : forallb (fun x => PosixPath.eqb x
                                           (PosixPath.parent (PosixPath.parse fle)))
                         ((fun f => PosixPath.parent (PosixPath.parse f)) <$> files)
                       = false).
    { induction Hsome as [f files Hf | f files _ IH]; cbn [fmap list_fmap forallb].
      - destruct (PosixPath.eqb (PosixPath.parent (PosixPath.parse f)) _) eqn:E;
          [| reflexivity].
        apply posix_eqb_eq in E. contradiction.
      - now rewrite IH, andb_false_r. }
    rewrite Hforallb. eexists. reflexivity.
Qed.

Lemma lsm_animal_tag_mapping_witness :
  LSMImporter_get_animal_tag_raw_data_mapping
    ["/data/bee1/run1/a.lsm"; "/data/bee1/run1/b.lsm"]
  = inr (<["bee1" := ["/data/bee1/run1/a.lsm"; "/data/bee1/run1/b.lsm"]]> ∅)
  /\ exists msg : string,
       LSMImporter_get_animal_tag_raw_data_mapping
         ["/data/bee1/run1/a.lsm"; "/data/bee1/run2/b.lsm"]
       = inl (AssertionError msg).
Proof.
  split.
  - apply (proj1 (proj2 (lsm_animal_tag_mapping "/data/bee1/run1/a.lsm"
                           ["/data/bee1/run1/b.lsm"]))).
    now repeat constructor.
  - apply (proj2 (proj2 (lsm_animal_tag_mapping "/data/bee1/run1/a.lsm"
                           ["/data/bee1/run2/b.lsm"]))).
    now left.
Defined.

(** ** Further properties of the LSM importer *)

Lemma lsm_extensions (dv : gmap string value) (fle : string) :
  LSMImporter_get_path_relative_to_data_dir (new LSMImporter dv) fle
  = lsm_path_loop [".lsm"] fle.
Proof.
  unfold LSMImporter_get_path_relative_to_data_dir.
  now rewrite getattr_movie_data_extensions.
Qed.

(** The path of an LSM file: a file that does not end in [.lsm] resolves to
    0 and -1; one that does and has a parent and a grandparent part resolves
    to 1 and the two parts joined with the stem of the file name; one that
    does and has fewer than three parts raises [IndexError]. *)
Theorem lsm_path_resolution (dv : gmap string value) (fle : string) :
  (PyStr.endswith fle ".lsm" = false ->
   LSMImporter_get_path_relative_to_data_dir (new LSMImporter dv) fle
   = inr (0, VInt (-1)))
  /\ (forall grandparent parent : string,
        PyStr.endswith fle ".lsm" = true ->
        WinPath.part_from_end 3 (WinPath.parts fle) = inr grandparent ->
        WinPath.part_from_end 2 (WinPath.parts fle) = inr parent ->
        LSMImporter_get_path_relative_to_data_dir (new LSMImporter dv) fle
        = inr (1, VStr (PosixPath.to_str
                          (PosixPath.join
                             (PosixPath.join (PosixPath.parse grandparent) parent)
                             (WinPath.stem fle)))))
  /\ (PyStr.endswith fle ".lsm" = true ->
      (length (WinPath.parts fle) < 3)%nat ->
      LSMImporter_get_path_relative_to_data_dir (new LSMImporter dv) fle
      = inl IndexError).
Proof.
  rewrite lsm_extensions. cbn [lsm_path_loop]. repeat split.
  - now intros ->.
  - intros grandparent parent -> -> ->. reflexivity.
  - intros -> Hlen.
    assert (H3 : WinPath.part_from_end 3 (WinPath.parts fle) = inl IndexError).
    { unfold WinPath.part_from_end.
      destruct (Nat.ltb_spec (length (WinPath.parts fle)) 3); [reflexivity | lia]. }
    rewrite H3. reflexivity.
Qed.

Lemma lsm_path_resolution_witness :
  LSMImporter_get_path_relative_to_data_dir (new LSMImporter ∅) "C:\data\bee1\run1\a.tif"
  = inr (0, VInt (-1))
  /\ LSMImporter_get_path_relative_to_data_dir (new LSMImporter ∅)
       "C:\data\bee1\run1\a.lsm"
     = inr (1, VStr "bee1/run1/a")
  /\ LSMImporter_get_path_relative_to_data_dir (new LSMImporter ∅) "run1\a.lsm"
     = inl IndexError.
Proof.
  split; [| split].
  - now apply (proj1 (lsm_path_resolution ∅ "C:\data\bee1\run1\a.tif")).
  - now apply (proj1 (proj2 (lsm_path_resolution ∅ "C:\data\bee1\run1\a.lsm"))
                 "bee1" "run1").
  - apply (proj2 (proj2 (lsm_path_resolution ∅ "run1\a.lsm"))); [reflexivity |].
    vm_compute. lia.
Defined.

(** What the row of an LSM file is made of. *)
Lemma image_series_row
  (lsm_open : string -> result lsm_metadata)
  (excel_timestamp : float -> result float)
  (default_values : gmap string value) (measurement_filter : series -> bool)
  (fle : string) (fle_ind : Z) (df : frame) :
  outcome (LSMImporter_read_single_measurement_metadata lsm_open excel_timestamp
             (new LSMImporter default_values) fle fle_ind measurement_filter)
  = inr df ->
  exists (metadata : lsm_metadata) (row : series) (wavelength : value)
         (channels : list value) (tracks : list (list value)) (utc : float)
         (analyze : Z) (dbb1 : value),
    lsm_open fle = inr metadata
    /\ df = [row]
    /\ ScanInformation_Tracks metadata = (wavelength :: channels) :: tracks
    /\ excel_timestamp (ScanInformation_Sample0time metadata) = inr utc
    /\ LSMImporter_get_path_relative_to_data_dir (new LSMImporter default_values) fle
       = inr (analyze, dbb1)
    /\ row !! "Measu" = Some (VInt (fle_ind + 1))
    /\ row !! "Label" = Some (ScanInformation_Name metadata)
    /\ row !! "Cycle"
       = Some (VFloat (PyFloat.mul (TimeIntervall metadata) (PyFloat.of_Z 1000)))
    /\ row !! "Lambda" = Some wavelength
    /\ row !! "UTC" = Some (VFloat utc)
    /\ row !! "PxSzX"
       = Some (VFloat (PyFloat.div (VoxelSizeX metadata) (PyFloat.of_decimal false 1 (-6))))
    /\ row !! "PxSzY"
       = Some (VFloat (PyFloat.div (VoxelSizeY metadata) (PyFloat.of_decimal false 1 (-6))))
    /\ row !! "DBB1" = Some dbb1
    /\ row !! "Analyze" = Some (VInt analyze)
    /\ keeps_defaults LSMImporter default_values row.
Proof.
  intros H. unfold LSMImporter_read_single_measurement_metadata in H.
  step H as metadata Hmetadata. step H as default_row Hdefault.
  rewrite get_default_row_new in Hdefault. injection Hdefault as <-.
  unfold convert_lsm_metadata_to_lst_row in H.
  step H as wavelength Hwavelength. step H as utc Hutc.
  step H as resolved Hresolved. destruct resolved as [analyze dbb1_relative].
  rewrite outcome_ret in H. injection H as <-.
  destruct (ScanInformation_Tracks metadata) as [| [| w channels] tracks] eqn:Htracks;
    try discriminate Hwavelength.
  injection Hwavelength as ->.
  exists metadata. eexists. exists wavelength, channels, tracks, utc, analyze, dbb1_relative.
  repeat split; try assumption; try (now lookup_row).
  intros column Hcolumn.
  rewrite !lookup_insert_ne; [reflexivity | ..];
    intros <-; apply Hcolumn; repeat constructor.
Qed.

(** The columns of the row of an LSM file: the measurement number is the
    index of the file plus one, the cycle is the time interval times 1000,
    the pixel sizes are the voxel sizes divided by 1e-6, the wavelength is
    that of the first illumination channel of the first track, [Analyze] is
    the flag of the path resolution, whatever the default row says, and all
    other columns are those of the default row. *)
Theorem image_series_columns
  (lsm_open : string -> result lsm_metadata)
  (excel_timestamp : float -> result float)
  (default_values : gmap string value) (measurement_filter : series -> bool)
  (fle : string) (fle_ind : Z) (df : frame) :
  outcome (LSMImporter_read_single_measurement_metadata lsm_open excel_timestamp
             (new LSMImporter default_values) fle fle_ind measurement_filter)
  = inr df ->
  exists (metadata : lsm_metadata) (row : series) (wavelength : value)
         (channels : list value) (tracks : list (list value)) (utc : float)
         (analyze : Z) (dbb1 : value),
    lsm_open fle = inr metadata
    /\ df = [row]
    /\ ScanInformation_Tracks metadata = (wavelength :: channels) :: tracks
    /\ excel_timestamp (ScanInformation_Sample0time metadata) = inr utc
    /\ LSMImporter_get_path_relative_to_data_dir (new LSMImporter default_values) fle
       = inr (analyze, dbb1)
    /\ row !! "Measu" = Some (VInt (fle_ind + 1))
    /\ row !! "Label" = Some (ScanInformation_Name metadata)
    /\ row !! "Cycle"
       = Some (VFloat (PyFloat.mul (TimeIntervall metadata) (PyFloat.of_Z 1000)))
    /\ row !! "Lambda" = Some wavelength
    /\ row !! "UTC" = Some (VFloat utc)
    /\ row !! "PxSzX"
       = Some (VFloat (PyFloat.div (VoxelSizeX metadata) (PyFloat.of_decimal false 1 (-6))))
    /\ row !! "PxSzY"
       = Some (VFloat (PyFloat.div (VoxelSizeY metadata) (PyFloat.of_decimal false 1 (-6))))
    /\ row !! "DBB1" = Some dbb1
    /\ row !! "Analyze" = Some (VInt analyze)
    /\ keeps_defaults LSMImporter default_values row.
Proof. apply image_series_row. Qed.

(** An LSM file is analyzed although the default row says [Analyze = 0]. *)
Lemma image_series_columns_witness :
  exists row : series,
    outcome (LSMImporter_read_single_measurement_metadata lsm_reader excel_identity
               (new LSMImporter (<["Analyze" := VInt 0]> (<["Comment" := VStr "none"]> ∅)))
               "C:\data\animal\run\a.lsm" 4 accept_all)
    = inr [row]
    /\ row !! "Measu" = Some (VInt 5)
    /\ row !! "Analyze" = Some (VInt 1)
    /\ row !! "Cycle" = Some (VFloat (PyFloat.of_Z 500))
    /\ row !! "Comment" = Some (VStr "none").
Proof.
  destruct (image_series_columns lsm_reader excel_identity
              (<["Analyze" := VInt 0]> (<["Comment" := VStr "none"]> ∅))
              accept_all "C:\data\animal\run\a.lsm" 4
              (match outcome (LSMImporter_read_single_measurement_metadata
                                lsm_reader excel_identity
                                (new LSMImporter
                                   (<["Analyze" := VInt 0]>
                                      (<["Comment" := VStr "none"]> ∅)))
                                "C:\data\animal\run\a.lsm" 4 accept_all)
               with inr t => t | inl _ => [] end))
    as (metadata & row & wavelength & channels & tracks & utc & analyze & dbb1
        & Hmetadata & Hdf & _ & _ & Hpath & HMeasu & _ & HCycle & _ & _ & _ & _ & _
        & HAnalyze & Hkeep);
    [by_evaluation |].
  exists row. split; [now rewrite <- Hdf; by_evaluation |].
  injection Hmetadata as <-.
  assert (Hresolved :
            LSMImporter_get_path_relative_to_data_dir
              (new LSMImporter (<["Analyze" := VInt 0]> (<["Comment" := VStr "none"]> ∅)))
              "C:\data\animal\run\a.lsm"
            = inr (1, VStr "animal/run/a")) by by_evaluation.
  rewrite Hresolved in Hpath. injection Hpath as <- <-.
  split; [exact HMeasu |]. split; [exact HAnalyze |]. split.
  - rewrite HCycle. by_evaluation.
  - rewrite Hkeep; [now lookup_row |].
    intros Hin. repeat (apply elem_of_cons in Hin as [Heq | Hin]; [discriminate Heq |]).
    now apply elem_of_nil in Hin.
Defined.

(** ** The default values in the rows of an import *)

Lemma Forall_concat_Forall2 {A R : Type} (Q : A -> list R -> Prop) (P : R -> Prop)
  (l : list A) (rs : list (list R)) :
  (forall x r, Q x r -> Forall P r) -> Forall2 Q l rs -> Forall P (concat rs).
Proof.
  intros HQ. induction 1 as [| x r l rs Hr _ IH]; simpl; [constructor |].
  apply Forall_app. split; [eapply HQ; eassumption | assumption].
Qed.

Lemma keeps_defaults_insert (cls : importer_class) (dv : gmap string value)
  (row : series) (column : string) (v : value) :
  column ∈ written_columns cls ->
  keeps_defaults cls dv row -> keeps_defaults cls dv (<[column := v]> row).
Proof.
  intros Hin Hrow c Hc. rewrite lookup_insert_ne; [now apply Hrow |].
  now intros <-.
Qed.

Lemma converted_keeps_defaults (cls : importer_class) (self : instance)
  (dv : gmap string value) (s row : series) :
  cls <> LSMImporter ->
  converted self s dv row -> keeps_defaults cls dv row.
Proof.
  intros Hcls [label index measu location analyze dbb1 da dt wl utc
                 HLabel HIndex HMeasu HLocation Hresolved HDefault HDt HWl HUtc].
  repeat (apply keeps_defaults_insert;
          [destruct cls; [repeat constructor | repeat constructor | contradiction] |]).
  now intros c _.
Qed.

(** Every row of an import has, in every column that its importer does not
    write, the value of the default row: the columns declared by the default
    values are in all the rows. *)
Theorem import_metadata_keeps_defaults
  (vws_open : string -> result VWSDataManager)
  (lsm_open : string -> result lsm_metadata)
  (timedelta_clock : value -> value -> result string)
  (excel_timestamp : float -> result float)
  (cls : importer_class) (default_values : gmap string value)
  (measurement_filter : series -> bool)
  (raw_data_files : list string) (table : frame) :
  outcome (import_metadata vws_open lsm_open timedelta_clock excel_timestamp
             (new cls default_values) raw_data_files measurement_filter)
  = inr table ->
  Forall (keeps_defaults cls default_values) table.
Proof.
  intros H. apply import_metadata_inv in H as (dfs & -> & Hdfs).
  eapply Forall_concat_Forall2; [| exact Hdfs].
  intros [fle_ind fle] df Hdf. cbn [fst snd] in Hdf.
  unfold read_single_measurement_metadata in Hdf. rewrite class_of_new in Hdf.
  destruct cls.
  - apply (one_wavelength_inv _ _ _ _ fle fle_ind) in Hdf as (m & rs & _ & -> & Hrs).
    eapply Forall_concat_Forall2; [| exact Hrs].
    intros s r (row & mtime & Hrow & ->). repeat constructor.
    apply keeps_defaults_insert; [repeat constructor |].
    now apply (converted_keeps_defaults TillImporterOneWavelength _ _ _ _
                 ltac:(discriminate) Hrow).
  - apply (two_wavelengths_inv _ _ _ _ fle fle_ind) in Hdf as (m & rs & _ & -> & Hrs).
    eapply Forall_concat_Forall2; [| exact Hrs].
    intros s r (row340 & row380 & mtime340 & mtime380 & dbb & H340 & H380 & _ & ->).
    repeat constructor;
      repeat (apply keeps_defaults_insert; [repeat constructor |]).
    + now apply (converted_keeps_defaults TillImporterTwoWavelength _ _ _ _
                   ltac:(discriminate) H340).
    + now apply (converted_keeps_defaults TillImporterTwoWavelength _ _ _ _
                   ltac:(discriminate) H380).
  - apply image_series_row in Hdf
      as (metadata & row & wavelength & channels & tracks & utc & analyze & dbb1
          & _ & -> & _ & _ & _ & _ & _ & _ & _ & _ & _ & _ & _ & _ & Hkeep).
    now repeat constructor.
Qed.

Lemma import_metadata_keeps_defaults_witness :
  exists row : series,
    outcome (import_metadata two_logs no_lsm clock_at_earliest excel_identity
               (new TillImporterOneWavelength (<["Comment" := VStr "none"]> ∅))
               ["a.vws.log"] accept_all)
    = inr [row]
    /\ row !! "Comment" = Some (VStr "none").
Proof.
  exists (hd ∅ (match outcome (import_metadata two_logs no_lsm clock_at_earliest
                                 excel_identity
                                 (new TillImporterOneWavelength
                                    (<["Comment" := VStr "none"]> ∅))
                                 ["a.vws.log"] accept_all)
                with inr t => t | inl _ => [] end)).
  split; [by_evaluation |].
  match goal with
  | |- ?row !! _ = _ =>
      assert (Hok : Forall (keeps_defaults TillImporterOneWavelength
                              (<["Comment" := VStr "none"]> ∅)) [row])
  end.
  { apply (import_metadata_keeps_defaults two_logs no_lsm clock_at_earliest
             excel_identity TillImporterOneWavelength
             (<["Comment" := VStr "none"]> ∅) accept_all ["a.vws.log"]).
    by_evaluation. }
  apply Forall_cons in Hok as [Hok _]. rewrite (Hok "Comment"); [now lookup_row |].
  intros Hin. repeat (apply elem_of_cons in Hin as [Heq | Hin]; [discriminate Heq |]).
  now apply elem_of_nil in Hin.
Defined.

(** ** Further properties, stated on the functions of the importers *)




(** The location that the conversion hands to the path resolution never
    ends in [.ps]: of the two movie data extensions of the Till importers,
    only [.pst] can match the location of a record. *)
Theorem expected_data_file_never_ps (location : value) (expected_data_file : string) :
  outcome (expected_data_file_of location) = inr expected_data_file ->
  PyStr.endswith expected_data_file ".ps" = false.
Proof.
  destruct location as [z | f | location]; try discriminate.
  rewrite outcome_expected_data_file_of. intros [= <-].
  apply amended_location_not_ps.
Qed.

Lemma expected_data_file_never_ps_witness :
  PyStr.endswith "C:\data\animal\maps.pst" ".ps" = false.
Proof.
  now apply (expected_data_file_never_ps (VStr "C:\data\animal\maps.ps")).
Defined.

(** A default [Analyze] that [int] does not accept makes the conversion of
    a record raise the error of [int], also when the record and its
    location are in order. *)
Theorem convert_default_analyze_error (self : instance) (s default_row : series)
  (label index measu : value) (location : string) (resolved : Z * value) (e : exn) :
  s !! "Label" = Some label ->
  s !! "index" = Some index ->
  PyInt.succ index = inr measu ->
  s !! "Location" = Some (VStr location) ->
  TillImporter_get_path_relative_to_data_dir self (amended_location location)
  = inr resolved ->
  PyInt.of_value (default (VInt 1) (default_row !! "Analyze")) = inl e ->
  outcome (convert_vws_names_to_lst_names self s default_row) = inl e.
Proof.
  intros HLabel HIndex HMeasu HLocation Hresolved HDefault.
  unfold convert_vws_names_to_lst_names.
  rewrite (bind_lift_ok _ _ label) by now apply getitem_ok.
  rewrite (bind_ok _ _ tt) by reflexivity.
  rewrite (bind_lift_ok _ _ index) by now apply getitem_ok.
  rewrite (bind_lift_ok _ _ measu) by assumption.
  rewrite (bind_lift_ok _ _ label) by now apply getitem_ok.
  rewrite (bind_lift_ok _ _ (VStr location)) by now apply getitem_ok.
  rewrite (bind_ok _ _ (amended_location location))
    by apply outcome_expected_data_file_of.
  rewrite (bind_lift_ok _ _ resolved) by assumption.
  destruct resolved as [analyze dbb1].
  rewrite (bind_ok _ _ tt) by apply outcome_warn_if.
  rewrite !lookup_insert_ne by done.
  now apply bind_err.
Qed.

Lemma convert_default_analyze_error_witness :
  outcome (convert_vws_names_to_lst_names (new TillImporterOneWavelength ∅)
             (with_additional_cols additional_cols_func
                (vws_record 0 "odor" "C:\data\animal\movie.pst" "0 100"))
             (<["Analyze" := VStr "yes"]> ∅))
  = inl ValueError.
Proof.
  apply (convert_default_analyze_error _ _ _ (VStr "odor") (VInt 0) (VInt 1)
           "C:\data\animal\movie.pst" (1, VStr "animal/movie"));
    by_evaluation.
Defined.

Lemma set_mtime_inv_clock (timedelta_clock : value -> value -> result string)
  (first_utc : value) (row : series) (df : frame) :
  outcome (set_mtime timedelta_clock first_utc [row]) = inr df ->
  exists (utc : value) (mtime : string),
    row !! "UTC" = Some utc
    /\ timedelta_clock utc first_utc = inr mtime
    /\ df = [<["MTime" := VStr mtime]> row].
Proof.
  intros H. unfold set_mtime in H.
  step H as utcs Hutcs. step H as utc Hutc. step H as mtime Hmtime.
  rewrite outcome_ret in H. injection H as <-.
  unfold column in Hutcs. cbn [mapM] in Hutcs.
  destruct (getitem row "UTC") as [e | utc'] eqn:Hrow; [discriminate |].
  injection Hutcs as <-. injection Hutc as <-.
  apply getitem_Some in Hrow. now exists utc', mtime.
Qed.

(** Every row of a one-wavelength log has, as [MTime], the time that
    [get_mtime] gives for the timestamp of its record and the earliest
    timestamp of the log. *)
Theorem one_wavelength_mtime
  (vws_open : string -> result VWSDataManager)
  (timedelta_clock : value -> value -> result string)
  (default_values : gmap string value) (measurement_filter : series -> bool)
  (fle : string) (fle_ind : Z) (table : frame) :
  outcome (TillImporterOneWavelength_read_single_measurement_metadata
             vws_open timedelta_clock (new TillImporterOneWavelength default_values)
             fle fle_ind measurement_filter)
  = inr table ->
  exists m : VWSDataManager,
    vws_open fle = inr m
    /\ Forall2 (fun (s row : series) =>
                  exists (utc : value) (mtime : string),
                    s !! "UTCTime" = Some utc
                    /\ get_mtime timedelta_clock utc (get_earliest_utc m) = inr mtime
                    /\ row !! "MTime" = Some (VStr mtime))
               (List.filter measurement_filter (measurements m)) table.
Proof.
  intros H. unfold TillImporterOneWavelength_read_single_measurement_metadata in H.
  step H as m Hm. step H as u Hu. exists m. split; [assumption |].
  apply (for_each_append_inv
           (fun (s : series) (r : frame) =>
              Forall2 (fun (s row : series) =>
                         exists (utc : value) (mtime : string),
                           s !! "UTCTime" = Some utc
                           /\ get_mtime timedelta_clock utc (get_earliest_utc m) = inr mtime
                           /\ row !! "MTime" = Some (VStr mtime))
                      [s] r))
    in H as (rs & -> & Hrs).
  - apply Forall2_concat_singletons.
    unfold get_all_metadata in Hrs. rewrite Forall2_fmap_l in Hrs.
    eapply Forall2_impl; [exact Hrs |].
    intros s r Hr. cbn [compose] in Hr.
    inversion Hr as [| ? row ? ? (utc & mtime & Hutc & Hmtime & Hrow) Hnil]; subst.
    inversion Hnil; subst. constructor; [| constructor].
    rewrite with_additional_cols_lookup in Hutc by done. now exists utc, mtime.
  - clear H. intros acc s t H.
    step H as default_row Hdefault. step H as lst_line Hconv.
    apply convert_vws_names_to_lst_names_inv in Hconv as (row & -> & Hrow).
    step H as lst_line' Hmtime.
    apply set_mtime_inv_clock in Hmtime as (utc & mtime & Hutc & Hclock & ->).
    rewrite outcome_ret in H. injection H as <-.
    eexists. split; [reflexivity |]. constructor; [| constructor].
    destruct Hrow as [label index measu location analyze dbb1 da dt wl utc'
                        HLabel HIndex HMeasu HLocation Hresolved HDefault HDt HWl HUtc].
    revert Hutc. lookup_row. intros [= <-].
    exists utc', mtime. repeat split; try assumption; now lookup_row.
Qed.

Lemma one_wavelength_mtime_witness :
  exists (table : frame) (m : VWSDataManager),
    two_logs "a.vws.log" = inr m
    /\ Forall2 (fun (s row : series) =>
                  exists (utc : value) (mtime : string),
                    s !! "UTCTime" = Some utc
                    /\ get_mtime clock_at_earliest utc (get_earliest_utc m) = inr mtime
                    /\ row !! "MTime" = Some (VStr mtime))
               (List.filter accept_all (measurements m)) table.
Proof.
  eexists.
  apply (one_wavelength_mtime two_logs clock_at_earliest ∅ accept_all "a.vws.log" 0
           (match outcome (TillImporterOneWavelength_read_single_measurement_metadata
                             two_logs clock_at_earliest (new TillImporterOneWavelength ∅)
                             "a.vws.log" 0 accept_all)
            with inr t => t | inl _ => [] end)).
  by_evaluation.
Defined.

(** ** Forward and backward slashes *)

Lemma of_chars_cons (c : ascii) (l : list ascii) :
  PyStr.of_chars (c :: l) = String c (PyStr.of_chars l).
Proof. reflexivity. Qed.

Lemma with_backslashes_idempotent (location : string) :
  with_backslashes (with_backslashes location) = with_backslashes location.
Proof.
  unfold with_backslashes, PyStr.replace. rewrite chars_of_chars. f_equal.
  rewrite map_map. apply map_ext. intros c.
  destruct (Ascii.eqb c WinPath.altsep) eqn:E; [reflexivity | now rewrite E].
Qed.

Lemma with_backslashes_empty (location : string) :
  bool_decide (with_backslashes location = "") = bool_decide (location = "").
Proof. now destruct location. Qed.

Lemma parts_with_backslashes (location : string) :
  WinPath.parts (with_backslashes location) = WinPath.parts location.
Proof.
  unfold WinPath.parts. rewrite with_backslashes_empty.
  fold (with_backslashes (with_backslashes location)). fold (with_backslashes location).
  now rewrite with_backslashes_idempotent.
Qed.

Lemma stem_with_backslashes (location : string) :
  WinPath.stem (with_backslashes location) = WinPath.stem location.
Proof.
  unfold WinPath.stem, WinPath.name, WinPath.has_anchor.
  rewrite parts_with_backslashes, with_backslashes_empty.
  fold (with_backslashes (with_backslashes location)). fold (with_backslashes location).
  now rewrite with_backslashes_idempotent.
Qed.

Lemma starts_chars_map (g : ascii -> ascii) (p l : list ascii) :
  (forall c a, c ∈ p -> Ascii.eqb c (g a) = Ascii.eqb c a) ->
  PyStr.starts_chars p (map g l) = PyStr.starts_chars p l.
Proof.
  revert l. induction p as [| c p IH]; intros l Hp; [reflexivity |].
  destruct l as [| a l]; [reflexivity |]. cbn [PyStr.starts_chars map].
  rewrite Hp by now left. rewrite IH; [reflexivity |].
  intros c' a' Hc'. apply Hp. now right.
Qed.

Lemma endswith_with_backslashes (location extension : string) :
  (forall c, c ∈ PyStr.chars extension -> c <> WinPath.sep /\ c <> WinPath.altsep) ->
  PyStr.endswith (with_backslashes location) extension
  = PyStr.endswith location extension.
Proof.
  intros Hext. unfold PyStr.endswith, with_backslashes, PyStr.replace.
  rewrite chars_of_chars, <- map_rev. apply starts_chars_map.
  intros c a Hc. apply list_elem_of_In, in_rev, list_elem_of_In, Hext in Hc as [Hsep Halt].
  destruct (Ascii.eqb a WinPath.altsep) eqn:E; [| reflexivity].
  apply Ascii.eqb_eq in E as ->.
  apply Ascii.eqb_neq in Hsep, Halt. now rewrite Hsep, Halt.
Qed.

(** The path resolution of the Till importers and of the LSM importer does
    not tell forward slashes from backslashes: a location resolves as the
    location with all its forward slashes written as backslashes does. *)
Theorem path_resolution_slashes (cls : importer_class) (dv : gmap string value)
  (location : string) :
  TillImporter_get_path_relative_to_data_dir (new cls dv) (with_backslashes location)
  = TillImporter_get_path_relative_to_data_dir (new cls dv) location
  /\ LSMImporter_get_path_relative_to_data_dir (new cls dv) (with_backslashes location)
     = LSMImporter_get_path_relative_to_data_dir (new cls dv) location.
Proof.
  assert (Hext : forall extension : string,
             extension ∈ [".pst"; ".ps"; ".lsm"] ->
             PyStr.endswith (with_backslashes location) extension
             = PyStr.endswith location extension).
  { intros extension Hin. apply endswith_with_backslashes. intros c Hc.
    repeat (apply elem_of_cons in Hin as [-> | Hin];
            [repeat (apply elem_of_cons in Hc as [-> | Hc]; [split; discriminate |]);
             now apply elem_of_nil in Hc |]).
    now apply elem_of_nil in Hin. }
  unfold TillImporter_get_path_relative_to_data_dir,
    LSMImporter_get_path_relative_to_data_dir.
  rewrite getattr_movie_data_extensions.
  destruct cls; cbn [movie_data_extensions_of till_path_loop lsm_path_loop];
    rewrite ?Hext, ?parts_with_backslashes, ?stem_with_backslashes;
    try (split; reflexivity); repeat constructor.
Qed.
